(** * GEA GlucoFlow: the insulin-infusion adjustment protocol of [app.py]

    A shallow embedding of [get_deltas] and [calculate_insulin_adjustment]
    and the properties of the protocol they implement, then of
    [reset_values] and of what the page script does to the session state
    and draws from it.

    Numbers are Python floats, that is IEEE 754 binary64 values: they are
    modelled by Rocq's primitive [float], whose comparisons and arithmetic
    are the binary64 ones ([nan], the infinities and the signed zeros
    included).  An [int] literal compared with a float ([current_flow < 4])
    is compared by value in Python; every [int] literal of the program is
    exactly representable, so it is written as the float of that value. *)

From Stdlib Require Import ZArith Bool List String Ascii Lia.
From Stdlib Require Import Floats DecimalString ZifyBool.
Import ListNotations.

(* Decimal literals denote the nearest binary64 value, as in Python. *)
Set Warnings "-inexact-float".

Local Open Scope float_scope.
Local Open Scope bool_scope.

(* ================================================================== *)
(** * Python's float operations *)

Module PyFloat.

(** [a > b] and [a >= b] are [b < a] and [b <= a]. *)
Definition gtb (a b : float) : bool := b <? a.
Definition geb (a b : float) : bool := b <=? a.

(** [max(a, b)] on two arguments: the first one is kept unless the
    second compares strictly greater. *)
Definition max (a b : float) : float := if gtb b a then b else a.

(** A float is a number when it is not [nan]: it compares equal to
    itself. *)
Definition is_number (x : float) : bool := x <=? x.

End PyFloat.

Infix ">?" := PyFloat.gtb (at level 70, no associativity) : float_scope.
Infix ">=?" := PyFloat.geb (at level 70, no associativity) : float_scope.

(* ================================================================== *)
(** * Python's format specifications [.1f], [.0f] and [+.0f]

    [format(x, '.pf')] prints the exact value of [x] rounded to [p]
    decimals, ties to even; the sign is the sign bit of [x] (so a small
    negative prints [-0.0]), and [+] asks for the sign of a non-negative
    value too.  [nan] and the infinities print by name. *)

Module PyFormat.

Local Open Scope Z_scope.
Local Open Scope string_scope.

(** [str] of a non-negative [int]. *)
Definition str_N (n : N) : string := NilZero.string_of_uint (N.to_uint n).

(** [str] of an [int]. *)
Definition str_int (z : Z) : string :=
  if (z <? 0)%Z then "-" ++ str_N (Z.to_N (- z)) else str_N (Z.to_N z).

(** [n / d] rounded to the nearest integer, ties to even ([0 <= n],
    [0 < d]). *)
Definition round_half_even (n d : Z) : Z :=
  let q := n / d in
  let r := n mod d in
  match (2 * r ?= d)%Z with
  | Lt => q
  | Gt => q + 1
  | Eq => if Z.even q then q else q + 1
  end.

(** [m * 2^e * 10^p], rounded. *)
Definition scaled (p : nat) (m : positive) (e : Z) : Z :=
  let n := Z.pos m * 10 ^ Z.of_nat p in
  if (0 <=? e)%Z then n * 2 ^ e else round_half_even n (2 ^ (- e)).

(** The digits of [q / 10^p] with [p] decimals (no point when [p = 0]). *)
Definition fixed (p : nat) (q : Z) : string :=
  let pw := 10 ^ Z.of_nat p in
  let int_part := str_N (Z.to_N (q / pw)) in
  match p with
  | O => int_part
  | _ => int_part ++ "." ++ substring 1 p (str_N (Z.to_N (pw + q mod pw)))
  end.

Definition sign_str (plus s : bool) : string :=
  if s then "-" else if plus then "+" else "".

Definition format_f (plus : bool) (p : nat) (x : float) : string :=
  match Prim2SF x with
  | S754_nan => sign_str plus false ++ "nan"
  | S754_infinity s => sign_str plus s ++ "inf"
  | S754_zero s => sign_str plus s ++ fixed p 0
  | S754_finite s m e => sign_str plus s ++ fixed p (scaled p m e)
  end.

(** [f"{x:.1f}"], [f"{x:.0f}"] and [f"{x:+.0f}"]. *)
Definition fmt1 (x : float) : string := format_f false 1 x.
Definition fmt0 (x : float) : string := format_f false 0 x.
Definition fmt0_signed (x : float) : string := format_f true 0 x.

End PyFormat.

Import PyFormat.

(* ================================================================== *)
(** * Constants *)

Definition GLUCOSE_TARGET_LOW_1 : float := 75.0.
Definition GLUCOSE_TARGET_LOW_2 : float := 100.0.
Definition GLUCOSE_TARGET_MID_1 : float := 140.0.
Definition GLUCOSE_TARGET_MID_2 : float := 200.0.
Definition PAUSE_DURATION_MINUTES : Z := 30.

(** [f"{GLUCOSE_TARGET_LOW_1}"]: [str(75.0)]. *)
Definition str_GLUCOSE_TARGET_LOW_1 : string := "75.0".

(* ================================================================== *)
(** * Data structures *)

(** [class InsulinCalculatorFormData(TypedDict)] *)
Record InsulinCalculatorFormData : Set := mkFormData {
  currentGlucose : float;
  previousGlucose : float;
  currentInsulinFlow : float
}.

(** [class InsulinRecommendation(TypedDict)] *)
Record InsulinRecommendation : Set := mkRecommendation {
  actionTitle : string;
  details : list string;
  newFlowRateInfo : string;
  originalFlowRateInfo : string;
  calculationSummary : option string;
  isCritical : bool;
  colorClass : string;
  icon : string
}.

(** [class Deltas(TypedDict)] *)
Record Deltas : Set := mkDeltas { delta1 : float; delta2 : float }.

(** What a Python call gives: a value, or a raised exception (with its
    message), which [try ... except Exception as e] catches. *)
Inductive result (A : Type) : Type :=
| Returned (a : A)
| Raised (e : string).
Arguments Returned {A} a.
Arguments Raised {A} e.

(* ================================================================== *)
(** * [get_deltas] *)

Definition get_deltas (current_flow : float) : result Deltas :=
  if current_flow <? 4 then
    Returned {| delta1 := 0.5; delta2 := 1.0 |}
  else if (4 <=? current_flow) && (current_flow <? 6.5) then
    Returned {| delta1 := 1.0; delta2 := 2.0 |}
  else if (6.5 <=? current_flow) && (current_flow <? 10) then
    Returned {| delta1 := 1.5; delta2 := 3.0 |}
  else if (10 <=? current_flow) && (current_flow <? 15) then
    Returned {| delta1 := 2.0; delta2 := 4.0 |}
  else if (15 <=? current_flow) && (current_flow <? 20) then
    Returned {| delta1 := 3.0; delta2 := 6.0 |}
  else if (20 <=? current_flow) && (current_flow <? 25) then
    Returned {| delta1 := 4.0; delta2 := 8.0 |}
  else if current_flow >=? 25 then
    Returned {| delta1 := 5.0; delta2 := 10.0 |}
  else
    (* Fallback (should not be reached with flow >= 0) *)
    Returned {| delta1 := 0.0; delta2 := 0.0 |}.

(** The band table [get_deltas] is documented by: a row is a flow band,
    lower bound included and upper bound excluded, with its pair. *)
Definition in_band (lo hi flow : float) : bool := (lo <=? flow) && (flow <? hi).

Definition band_table (flow : float) (d : Deltas) : Prop :=
  ((flow <? 4) = true -> d = {| delta1 := 0.5; delta2 := 1.0 |}) /\
  (in_band 4 6.5 flow = true -> d = {| delta1 := 1.0; delta2 := 2.0 |}) /\
  (in_band 6.5 10 flow = true -> d = {| delta1 := 1.5; delta2 := 3.0 |}) /\
  (in_band 10 15 flow = true -> d = {| delta1 := 2.0; delta2 := 4.0 |}) /\
  (in_band 15 20 flow = true -> d = {| delta1 := 3.0; delta2 := 6.0 |}) /\
  (in_band 20 25 flow = true -> d = {| delta1 := 4.0; delta2 := 8.0 |}) /\
  ((25 <=? flow) = true -> d = {| delta1 := 5.0; delta2 := 10.0 |}).

(* ================================================================== *)
(** * [calculate_insulin_adjustment] *)

(** The local variables of [calculate_insulin_adjustment] that the protocol
    section assigns and the final result is built from. *)
Record Vars : Set := mkVars {
  action_title : string;
  v_details : list string;
  new_flow : float;
  is_critical : bool;
  color_class : string;
  v_icon : string;
  original_flow_rate_info : string;
  new_flow_rate_info : string;
  calculation_summary : string
}.

(** Assignments to one local variable. *)
Definition set_action_title (x : string) (v : Vars) : Vars :=
  mkVars x (v_details v) (new_flow v) (is_critical v) (color_class v)
         (v_icon v) (original_flow_rate_info v) (new_flow_rate_info v)
         (calculation_summary v).
Definition set_details (x : list string) (v : Vars) : Vars :=
  mkVars (action_title v) x (new_flow v) (is_critical v) (color_class v)
         (v_icon v) (original_flow_rate_info v) (new_flow_rate_info v)
         (calculation_summary v).
Definition set_new_flow (x : float) (v : Vars) : Vars :=
  mkVars (action_title v) (v_details v) x (is_critical v) (color_class v)
         (v_icon v) (original_flow_rate_info v) (new_flow_rate_info v)
         (calculation_summary v).
Definition set_is_critical (x : bool) (v : Vars) : Vars :=
  mkVars (action_title v) (v_details v) (new_flow v) x (color_class v)
         (v_icon v) (original_flow_rate_info v) (new_flow_rate_info v)
         (calculation_summary v).
Definition set_color_class (x : string) (v : Vars) : Vars :=
  mkVars (action_title v) (v_details v) (new_flow v) (is_critical v) x
         (v_icon v) (original_flow_rate_info v) (new_flow_rate_info v)
         (calculation_summary v).
Definition set_icon (x : string) (v : Vars) : Vars :=
  mkVars (action_title v) (v_details v) (new_flow v) (is_critical v)
         (color_class v) x (original_flow_rate_info v) (new_flow_rate_info v)
         (calculation_summary v).
Definition set_new_flow_rate_info (x : string) (v : Vars) : Vars :=
  mkVars (action_title v) (v_details v) (new_flow v) (is_critical v)
         (color_class v) (v_icon v) (original_flow_rate_info v) x
         (calculation_summary v).
Definition set_calculation_summary (x : string) (v : Vars) : Vars :=
  mkVars (action_title v) (v_details v) (new_flow v) (is_critical v)
         (color_class v) (v_icon v) (original_flow_rate_info v)
         (new_flow_rate_info v) x.

(** [calculation_summary += x] *)
Definition add_calculation_summary (x : string) (v : Vars) : Vars :=
  set_calculation_summary (calculation_summary v ++ x) v.

Section Protocol.

Local Open Scope string_scope.

Variables current_glucose previous_glucose current_insulin_flow : float.
Variable deltas : Deltas.

Let glucose_change : float := (current_glucose - previous_glucose)%float.

(** "Valores por defecto" *)
Definition default_vars : Vars :=
  {| action_title := "Revisar Datos/Protocolo";
     v_details := ["Los valores ingresados no generaron una recomendación estándar. Verifique los datos o consulte el protocolo clínico."];
     new_flow := current_insulin_flow;
     is_critical := false;
     color_class := "warning";
     v_icon := "❓";
     original_flow_rate_info := "Flujo actual: " ++ fmt1 current_insulin_flow ++ " cc/h";
     new_flow_rate_info := "Mantener flujo: " ++ fmt1 current_insulin_flow ++ " cc/h";
     calculation_summary :=
       "Cambio de glucosa: " ++ fmt0_signed glucose_change ++ " mg/dL ("
         ++ fmt0 previous_glucose ++ " -> " ++ fmt0 current_glucose ++ " mg/dL)." |}.

(** 1. Hipoglucemia (< 75) *)
Definition hypoglycemia (v : Vars) : Vars :=
  let v := set_action_title "¡HIPOGLUCEMIA!" v in
  let v := set_details
             ["Glucosa actual (" ++ fmt0 current_glucose ++ ") < "
                ++ str_GLUCOSE_TARGET_LOW_1 ++ ". CONSIDERAR SUSPENDER.";
              "Administrar carbohidratos según protocolo.";
              "Evaluar causa."] v in
  let v := set_new_flow 0.0%float v in
  let v := set_new_flow_rate_info
             ("Nuevo flujo sugerido: " ++ fmt1 (new_flow v) ++ " cc/h (SUSPENDER)") v in
  let v := add_calculation_summary " Suspensión sugerida por hipoglucemia." v in
  let v := set_is_critical true v in
  let v := set_color_class "error" v in
  set_icon "🚨" v.

(** The four kinds of sub-branch, as the source writes each of them; the
    bands differ in the text of [details] only. *)

(** "CONTINUAR SIN CAMBIOS" *)
Definition hold (details : list string) (v : Vars) : Vars :=
  let v := set_action_title "CONTINUAR SIN CAMBIOS" v in
  let v := set_details details v in
  let v := set_new_flow_rate_info ("Mantener: " ++ fmt1 current_insulin_flow) v in
  let v := set_color_class "success" v in
  set_icon "✅" v.

(** "DISMINUIR FLUJO (1 Delta)" *)
Definition decrease1 (details : list string) (v : Vars) : Vars :=
  let v := set_action_title "DISMINUIR FLUJO (1 Delta)" v in
  let flow_change_amount := (- delta1 deltas)%float in
  let v := set_new_flow
             (PyFloat.max 0.0 (current_insulin_flow + flow_change_amount))%float v in
  let v := set_details details v in
  let v := set_new_flow_rate_info ("Nuevo: " ++ fmt1 (new_flow v)) v in
  let v := add_calculation_summary (" Δ: -" ++ fmt1 (delta1 deltas) ++ ".") v in
  let v := set_color_class "info" v in
  set_icon "⬇️" v.

(** "PAUSAR (30 min) Y AJUSTAR (2 Deltas)" *)
Definition pause_decrease2 (details : list string) (v : Vars) : Vars :=
  let v := set_action_title
             ("PAUSAR (" ++ str_int PAUSE_DURATION_MINUTES ++ " min) Y AJUSTAR (2 Deltas)") v in
  let flow_change_amount := (- delta2 deltas)%float in
  let new_flow_after_pause :=
    (PyFloat.max 0.0 (current_insulin_flow + flow_change_amount))%float in
  let v := set_details details v in
  let v := set_new_flow_rate_info ("Post-pausa: " ++ fmt1 new_flow_after_pause) v in
  let v := add_calculation_summary (" Pausa + Δ: -" ++ fmt1 (delta2 deltas) ++ ".") v in
  let v := set_is_critical true v in
  let v := set_color_class "warning" v in
  let v := set_icon "⏸️⬇️" v in
  set_new_flow new_flow_after_pause v.

(** "AUMENTAR FLUJO (1 Delta)" *)
Definition increase1 (details : list string) (v : Vars) : Vars :=
  let v := set_action_title "AUMENTAR FLUJO (1 Delta)" v in
  let flow_change_amount := delta1 deltas in
  let v := set_new_flow (current_insulin_flow + flow_change_amount)%float v in
  let v := set_details details v in
  let v := set_new_flow_rate_info ("Nuevo: " ++ fmt1 (new_flow v)) v in
  let v := add_calculation_summary (" Δ: +" ++ fmt1 (delta1 deltas) ++ ".") v in
  let v := set_color_class "info" v in
  set_icon "⬆️" v.

(** "AUMENTAR FLUJO (2 Deltas)" *)
Definition increase2 (details : list string) (v : Vars) : Vars :=
  let v := set_action_title "AUMENTAR FLUJO (2 Deltas)" v in
  let flow_change_amount := delta2 deltas in
  let v := set_new_flow (current_insulin_flow + flow_change_amount)%float v in
  let v := set_details details v in
  let v := set_new_flow_rate_info ("Nuevo: " ++ fmt1 (new_flow v)) v in
  let v := add_calculation_summary (" Δ: +" ++ fmt1 (delta2 deltas) ++ ".") v in
  let v := set_color_class "info" v in
  set_icon "⬆️⬆️" v.

Let pause_line : string := "Pausar " ++ str_int PAUSE_DURATION_MINUTES ++ " min.".
Let d1 : string := fmt1 (delta1 deltas).
Let d2 : string := fmt1 (delta2 deltas).

(** 2. Rango Bajo-Normal (75-99) *)
Definition band_75_100 (v : Vars) : Vars :=
  let v := add_calculation_summary
             (" Rango: " ++ fmt0 GLUCOSE_TARGET_LOW_1 ++ "-" ++ fmt0 GLUCOSE_TARGET_LOW_2 ++ ".") v in
  if (glucose_change >? 0)%float then
    hold ["Glucosa 75-99 y subiendo."] v
  else if ((0 >=? glucose_change) && (glucose_change >? -25))%float then
    decrease1 ["Glucosa 75-99, estable o descenso < 25. Disminuir " ++ d1 ++ "."] v
  else if (glucose_change <=? -25)%float then
    pause_decrease2 ["Glucosa 75-99, descenso >= 25."; pause_line;
                     "Reanudar y disminuir " ++ d2 ++ "."] v
  else v.

(** 3. Rango Objetivo (100-139) *)
Definition band_100_140 (v : Vars) : Vars :=
  let v := add_calculation_summary
             (" Rango: " ++ fmt0 GLUCOSE_TARGET_LOW_2 ++ "-" ++ fmt0 GLUCOSE_TARGET_MID_1 ++ ".") v in
  if (glucose_change >? 25)%float then
    increase1 ["Glucosa 100-139, aumento > 25. Aumentar " ++ d1 ++ "."] v
  else if ((-25 <? glucose_change) && (glucose_change <=? 25))%float then
    hold ["Glucosa 100-139, cambio -25 a +25."] v
  else if ((-50 <=? glucose_change) && (glucose_change <=? -26))%float then
    decrease1 ["Glucosa 100-139, descenso 26-50. Disminuir " ++ d1 ++ "."] v
  else if (glucose_change <? -50)%float then
    pause_decrease2 ["Glucosa 100-139, descenso > 50."; pause_line;
                     "Reanudar y disminuir " ++ d2 ++ "."] v
  else v.

(** 4. Rango Alto (140-199) *)
Definition band_140_200 (v : Vars) : Vars :=
  let v := add_calculation_summary
             (" Rango: " ++ fmt0 GLUCOSE_TARGET_MID_1 ++ "-" ++ fmt0 GLUCOSE_TARGET_MID_2 ++ ".") v in
  if (glucose_change >? 50)%float then
    increase2 ["Glucosa 140-199, aumento > 50. Aumentar " ++ d2 ++ "."] v
  else if ((0 <=? glucose_change) && (glucose_change <=? 50))%float then
    increase1 ["Glucosa 140-199, aumento <= 50 o estable. Aumentar " ++ d1 ++ "."] v
  else if ((-49 <? glucose_change) && (glucose_change <? 0))%float then
    hold ["Glucosa 140-199, descenso < 50."] v
  else if ((-75 <=? glucose_change) && (glucose_change <=? -50))%float then
    decrease1 ["Glucosa 140-199, descenso 50-75. Disminuir " ++ d1 ++ "."] v
  else if (glucose_change <? -75)%float then
    pause_decrease2 ["Glucosa 140-199, descenso > 75."; pause_line;
                     "Reanudar y disminuir " ++ d2 ++ "."] v
  else v.

(** 5. Rango Muy Alto (>= 200) *)
Definition band_200 (v : Vars) : Vars :=
  let v := add_calculation_summary
             (" Rango: >= " ++ fmt0 GLUCOSE_TARGET_MID_2 ++ ".") v in
  if (glucose_change >? 0)%float then
    increase2 ["Glucosa >= 200 y subiendo. Aumentar " ++ d2 ++ "."] v
  else if ((-24 <? glucose_change) && (glucose_change <=? 0))%float then
    increase1 ["Glucosa >= 200, estable o descenso < 25. Aumentar " ++ d1 ++ "."] v
  else if ((-75 <=? glucose_change) && (glucose_change <=? -25))%float then
    hold ["Glucosa >= 200, descenso 25-75."] v
  else if ((-100 <=? glucose_change) && (glucose_change <? -75))%float then
    decrease1 ["Glucosa >= 200, descenso 75-100. Disminuir " ++ d1 ++ "."] v
  else if (glucose_change <? -100)%float then
    pause_decrease2 ["Glucosa >= 200, descenso > 100."; pause_line;
                     "Reanudar y disminuir " ++ d2 ++ "."] v
  else v.

(** "Lógica Principal del Protocolo": the local variables when the
    [if]/[elif] chain is over. *)
Definition protocol : Vars :=
  let v := default_vars in
  if (current_glucose <? GLUCOSE_TARGET_LOW_1)%float then
    hypoglycemia v
  else if ((GLUCOSE_TARGET_LOW_1 <=? current_glucose)
           && (current_glucose <? GLUCOSE_TARGET_LOW_2))%float then
    band_75_100 v
  else if ((GLUCOSE_TARGET_LOW_2 <=? current_glucose)
           && (current_glucose <? GLUCOSE_TARGET_MID_1))%float then
    band_100_140 v
  else if ((GLUCOSE_TARGET_MID_1 <=? current_glucose)
           && (current_glucose <? GLUCOSE_TARGET_MID_2))%float then
    band_140_200 v
  else if (current_glucose >=? GLUCOSE_TARGET_MID_2)%float then
    band_200 v
  else v.

End Protocol.

(** "Construcción Final del Resultado" *)
Definition recommendation_of (v : Vars) : InsulinRecommendation :=
  {| actionTitle := action_title v;
     details := v_details v;
     newFlowRateInfo := new_flow_rate_info v;
     originalFlowRateInfo := original_flow_rate_info v;
     calculationSummary := Some (calculation_summary v);
     isCritical := is_critical v;
     colorClass := color_class v;
     icon := v_icon v |}.

(** The result of the input validation failing. *)
Definition error_en_datos : InsulinRecommendation :=
  {| actionTitle := "ERROR EN DATOS";
     details := ["Verifique que los valores de glucosa sean positivos (> 0) y el flujo de insulina sea no negativo (>= 0)."%string];
     newFlowRateInfo := "N/A";
     originalFlowRateInfo := "N/A";
     calculationSummary := None;
     isCritical := true;
     colorClass := "error";
     icon := "🚨" |}.

(** The result of [get_deltas] raising [e]. *)
Definition error_interno (e : string) (current_insulin_flow : float)
  : InsulinRecommendation :=
  {| actionTitle := "ERROR INTERNO";
     details := [("Error calculando los deltas: " ++ e)%string;
                 "Revise el flujo de insulina ingresado."%string];
     newFlowRateInfo := "N/A";
     originalFlowRateInfo :=
       ("Flujo ingresado: " ++ fmt1 current_insulin_flow ++ " cc/h")%string;
     calculationSummary := None;
     isCritical := true;
     colorClass := "error";
     icon := "⚙️" |}.

(** "Validación de Entrada Básica": the condition the function negates. *)
Definition valid_input (data : InsulinCalculatorFormData) : bool :=
  (currentGlucose data >? 0) && (previousGlucose data >? 0)
  && (currentInsulinFlow data >=? 0).

(** How a call ends: at one of the two early [return]s, or at the final
    one with the local variables it builds its result from. *)
Inductive outcome : Set :=
| EarlyReturn (r : InsulinRecommendation)
| Completed (v : Vars).

Definition run (data : InsulinCalculatorFormData) : outcome :=
  let current_glucose := currentGlucose data in
  let previous_glucose := previousGlucose data in
  let current_insulin_flow := currentInsulinFlow data in
  if negb (valid_input data) then EarlyReturn error_en_datos
  else
    match get_deltas current_insulin_flow with
    | Raised e => EarlyReturn (error_interno e current_insulin_flow)
    | Returned deltas =>
        Completed (protocol current_glucose previous_glucose
                            current_insulin_flow deltas)
    end.

Definition calculate_insulin_adjustment (data : InsulinCalculatorFormData)
  : InsulinRecommendation :=
  match run data with
  | EarlyReturn r => r
  | Completed v => recommendation_of v
  end.

(** [glucose_change], as the function computes it. *)
Definition glucose_change_of (data : InsulinCalculatorFormData) : float :=
  currentGlucose data - previousGlucose data.

(** Exactly one of three conditions holds. *)
Definition exactly_one (a b c : bool) : Prop :=
  (a = true /\ b = false /\ c = false) \/
  (a = false /\ b = true /\ c = false) \/
  (a = false /\ b = false /\ c = true).

(** The local variables [protocol] can end with: one of the six kinds of
    assignment block on top of the defaults (with the band label appended
    to the summary), or the defaults left as they are, when no sub-branch
    of the band (or no band) matches. *)
Inductive protocol_end (cg pg flow : float) (d : Deltas) : Vars -> Prop :=
| end_hypoglycemia :
    protocol_end cg pg flow d (hypoglycemia cg (default_vars cg pg flow))
| end_hold details band :
    protocol_end cg pg flow d
      (hold flow details (add_calculation_summary band (default_vars cg pg flow)))
| end_decrease1 details band :
    protocol_end cg pg flow d
      (decrease1 flow d details (add_calculation_summary band (default_vars cg pg flow)))
| end_pause_decrease2 details band :
    protocol_end cg pg flow d
      (pause_decrease2 flow d details (add_calculation_summary band (default_vars cg pg flow)))
| end_increase1 details band :
    protocol_end cg pg flow d
      (increase1 flow d details (add_calculation_summary band (default_vars cg pg flow)))
| end_increase2 details band :
    protocol_end cg pg flow d
      (increase2 flow d details (add_calculation_summary band (default_vars cg pg flow)))
| end_unmatched band :
    protocol_end cg pg flow d (add_calculation_summary band (default_vars cg pg flow))
| end_no_band :
    protocol_end cg pg flow d (default_vars cg pg flow).

(* ================================================================== *)
(** * The session state and the page script

    [st.session_state] on the five keys the script uses.  A key is absent
    ([None]) or holds a value; the value of a number field is Python's
    [None] or a float.  The calls that draw the fixed parts of the page
    (header, form fields, buttons, disclaimer, footer) leave the state
    alone and are not modelled; what the script does to the state and the
    results it draws from it are. *)

Record SessionState : Set := mkSessionState {
  current_glucose : option (option float);
  previous_glucose : option (option float);
  current_flow : option (option float);
  recommendation : option InsulinRecommendation;
  recommendation_calculated : option bool
}.

(** [st.session_state.key = x] *)
Definition set_current_glucose (x : option float) (s : SessionState) :=
  mkSessionState (Some x) (previous_glucose s) (current_flow s)
                 (recommendation s) (recommendation_calculated s).
Definition set_previous_glucose (x : option float) (s : SessionState) :=
  mkSessionState (current_glucose s) (Some x) (current_flow s)
                 (recommendation s) (recommendation_calculated s).
Definition set_current_flow (x : option float) (s : SessionState) :=
  mkSessionState (current_glucose s) (previous_glucose s) (Some x)
                 (recommendation s) (recommendation_calculated s).
Definition set_recommendation (x : InsulinRecommendation) (s : SessionState) :=
  mkSessionState (current_glucose s) (previous_glucose s) (current_flow s)
                 (Some x) (recommendation_calculated s).
Definition set_recommendation_calculated (x : bool) (s : SessionState) :=
  mkSessionState (current_glucose s) (previous_glucose s) (current_flow s)
                 (recommendation s) (Some x).

(** [del st.session_state['recommendation']] *)
Definition del_recommendation (s : SessionState) :=
  mkSessionState (current_glucose s) (previous_glucose s) (current_flow s)
                 None (recommendation_calculated s).

(** ['key' in st.session_state] *)
Definition has_key {A : Type} (x : option A) : bool :=
  match x with Some _ => true | None => false end.

(** [st.session_state.key], which raises on an absent key. *)
Definition read_key {A : Type} (key : string) (x : option A) : result A :=
  match x with
  | Some a => Returned a
  | None => Raised ("AttributeError: " ++ key)%string
  end.

(** The state of a new session: no key yet. *)
Definition new_session : SessionState :=
  mkSessionState None None None None None.

(** [reset_values] *)
Definition reset_values (s : SessionState) : SessionState :=
  let s := set_current_glucose None s in
  let s := set_previous_glucose None s in
  let s := set_current_flow None s in
  let s := if has_key (recommendation s) then del_recommendation s else s in
  set_recommendation_calculated false s.

(** "Inicialización de Session State" *)
Definition init_session_state (s : SessionState) : SessionState :=
  let s := if negb (has_key (current_glucose s))
           then set_current_glucose None s else s in
  let s := if negb (has_key (previous_glucose s))
           then set_previous_glucose None s else s in
  let s := if negb (has_key (current_flow s))
           then set_current_flow None s else s in
  if negb (has_key (recommendation_calculated s))
  then set_recommendation_calculated false s else s.

(** What the page shows: the calls of the script that draw a result or a
    message. *)
#[warnings="-register-all"]
Inductive element : Set :=
| st_error (body : string)
| st_success (body : string)
| st_info (body : string)
| st_warning (body : string)
| st_markdown (body : string)
| st_subheader (body : string)
| st_caption (body : string)
| st_expander (label : string) (expanded : bool) (children : list element).

(** The call of [calculate_insulin_adjustment] as the [try] of the script
    sees it.  The function has no path that raises: its own [try] covers
    [get_deltas], and comparing, adding and formatting floats never
    raises. *)
Definition call_calculate_insulin_adjustment (input_data : InsulinCalculatorFormData)
  : result InsulinRecommendation :=
  Returned (calculate_insulin_adjustment input_data).

(** "Por favor, complete todos los campos." *)
Definition incomplete_fields (s : SessionState)
  : result (SessionState * list element) :=
  Returned (set_recommendation_calculated false s,
            [st_error "❌ Por favor, complete todos los campos."%string]).

(** "Lógica de Cálculo": the body of [if submitted:].  The three [is None]
    tests are joined by [or]: a key is read only when the tests before it
    are false. *)
Definition on_submit (s : SessionState) : result (SessionState * list element) :=
  match read_key "current_glucose" (current_glucose s) with
  | Raised e => Raised e
  | Returned None => incomplete_fields s
  | Returned (Some cg) =>
    match read_key "previous_glucose" (previous_glucose s) with
    | Raised e => Raised e
    | Returned None => incomplete_fields s
    | Returned (Some pg) =>
      match read_key "current_flow" (current_flow s) with
      | Raised e => Raised e
      | Returned None => incomplete_fields s
      | Returned (Some flow) =>
        let input_data :=
          {| currentGlucose := cg;
             previousGlucose := pg;
             currentInsulinFlow := flow |} in
        match call_calculate_insulin_adjustment input_data with
        | Returned r =>
            let s := set_recommendation r s in
            let s := set_recommendation_calculated true s in
            Returned (s, [])
        | Raised e =>
            Returned
              (set_recommendation_calculated false s,
               [st_error ("🤕 Ocurrió un error inesperado durante el cálculo: " ++ e)%string])
        end
      end
    end
  end.

(** [alert_map.get(color, st.info)] *)
Definition alert_function (color : string) : string -> element :=
  if (color =? "success")%string then st_success
  else if (color =? "info")%string then st_info
  else if (color =? "warning")%string then st_warning
  else if (color =? "error")%string then st_error
  else st_info.

(** [if x:] on an optional string: [None] and the empty string are false. *)
Definition truthy (x : option string) : bool :=
  match x with
  | Some s => negb (s =? "")%string
  | None => false
  end.

(** The condition of the monitoring warning. *)
Definition needs_monitoring (r : InsulinRecommendation) : bool :=
  isCritical r && negb (actionTitle r =? "¡HIPOGLUCEMIA!")%string.

Definition monitoring_warning : element :=
  st_warning "⚠️ **Atención:** Acción significativa. Monitoreo estricto requerido."%string.

(** The body of [with st.expander(...)]. *)
Definition expander_body (r : InsulinRecommendation) : list element :=
  [st_markdown "**Detalles de la acción:**"%string]
  ++ map (fun detail => st_markdown ("- " ++ detail)%string) (details r)
  ++ (if truthy (calculationSummary r) then
        match calculationSummary r with
        | Some summary => [st_caption ("📝 *Resumen: " ++ summary ++ "*")%string]
        | None => []
        end
      else [])
  ++ (if needs_monitoring r then [monitoring_warning] else []).

(** The condition of "Visualización de Resultados". *)
Definition results_visible (s : SessionState) : bool :=
  match recommendation_calculated s with
  | Some b => b
  | None => false
  end
  && has_key (recommendation s).

(** The lines of "Visualización de Resultados" that draw a
    recommendation. *)
Definition draw_recommendation (r : InsulinRecommendation) : list element :=
  [st_markdown "---"%string;
   st_subheader ("Recomendación Calculada " ++ icon r)%string;
   alert_function (colorClass r) ("**" ++ actionTitle r ++ "**")%string;
   st_markdown ("📉 **" ++ originalFlowRateInfo r ++ "**")%string;
   st_markdown ("📈 **" ++ newFlowRateInfo r ++ "**")%string;
   st_expander "Ver Detalles y Cálculo" (isCritical r) (expander_body r)].

(** "Visualización de Resultados" *)
Definition display_results (s : SessionState) : result (list element) :=
  if results_visible s then
    match read_key "recommendation" (recommendation s) with
    | Raised e => Raised e
    | Returned r => Returned (draw_recommendation r)
    end
  else Returned [].

(** One run of the page script on the session state: the initialization,
    the submit block when the form was submitted, and the results. *)
Definition rerun (submitted : bool) (s : SessionState)
  : result (SessionState * list element) :=
  let s := init_session_state s in
  match (if submitted then on_submit s else Returned (s, [])) with
  | Raised e => Raised e
  | Returned (s, messages) =>
      match display_results s with
      | Raised e => Raised e
      | Returned shown => Returned (s, messages ++ shown)
      end
  end.

(** The recommendation is stored whenever the flag says it is ready. *)
Definition stored_when_ready (s : SessionState) : Prop :=
  recommendation_calculated s = Some true ->
  has_key (recommendation s) = true.

(** A number field with no number in it: absent, or [None]. *)
Definition blank (x : option (option float)) : bool :=
  match x with
  | Some (Some _) => false
  | _ => true
  end.

(** The label the summary carries after the glucose change line. *)
Definition band_label (cg : float) : string :=
  if cg <? 75 then " Suspensión sugerida por hipoglucemia."
  else if cg <? 100 then " Rango: 75-100."
  else if cg <? 140 then " Rango: 100-140."
  else if cg <? 200 then " Rango: 140-200."
  else " Rango: >= 200.".

(** The inputs on which the source runs each kind of adjustment: the band
    of the current glucose [cg] with the condition on the glucose change
    [c] of the [if]/[elif] that holds the block. *)
Definition decrease1_applies (cg c : float) : bool :=
  in_band 75 100 cg && ((0 >=? c) && (c >? -25))
  || in_band 100 140 cg && ((-50 <=? c) && (c <=? -26))
  || in_band 140 200 cg && ((-75 <=? c) && (c <=? -50))
  || (cg >=? 200) && ((-100 <=? c) && (c <? -75)).

Definition pause_decrease2_applies (cg c : float) : bool :=
  in_band 75 100 cg && (c <=? -25)
  || in_band 100 140 cg && (c <? -50)
  || in_band 140 200 cg && (c <? -75)
  || (cg >=? 200) && (c <? -100).

Definition increase1_applies (cg c : float) : bool :=
  in_band 100 140 cg && (c >? 25)
  || in_band 140 200 cg && ((0 <=? c) && (c <=? 50))
  || (cg >=? 200) && ((-24 <? c) && (c <=? 0)).

Definition increase2_applies (cg c : float) : bool :=
  in_band 140 200 cg && (c >? 50)
  || (cg >=? 200) && (c >? 0).

(** The note on the delta that the summary of an adjustment ends with. *)
Definition delta_note (cg c : float) (d : Deltas) : string :=
  if decrease1_applies cg c then " Δ: -" ++ fmt1 (delta1 d) ++ "."
  else if pause_decrease2_applies cg c then
    " Pausa + Δ: -" ++ fmt1 (delta2 d) ++ "."
  else if increase1_applies cg c then " Δ: +" ++ fmt1 (delta1 d) ++ "."
  else if increase2_applies cg c then " Δ: +" ++ fmt1 (delta2 d) ++ "."
  else "".

(* ================================================================== *)
(** * The order of binary64 values

    The comparisons of two floats are decided by a key: [nan] has none,
    and the keys of the other values are ordered lexicographically the way
    the values are (sign class, then exponent, then mantissa). *)

Module FloatOrder.

Local Open Scope Z_scope.

Definition key (x : spec_float) : option (Z * Z * Z) :=
  match x with
  | S754_nan => None
  | S754_infinity true => Some (-2, 0, 0)
  | S754_finite true m e => Some (-1, - e, Z.neg m)
  | S754_zero _ => Some (0, 0, 0)
  | S754_finite false m e => Some (1, e, Z.pos m)
  | S754_infinity false => Some (2, 0, 0)
  end.

Definition lex_ltb (k1 k2 : Z * Z * Z) : bool :=
  let '(a1, b1, c1) := k1 in
  let '(a2, b2, c2) := k2 in
  (a1 <? a2) || (a1 =? a2) && ((b1 <? b2) || (b1 =? b2) && (c1 <? c2)).

Definition lex_leb (k1 k2 : Z * Z * Z) : bool :=
  let '(a1, b1, c1) := k1 in
  let '(a2, b2, c2) := k2 in
  (a1 <? a2) || (a1 =? a2) && ((b1 <? b2) || (b1 =? b2) && (c1 <=? c2)).

Definition cmp2 (f : Z * Z * Z -> Z * Z * Z -> bool)
           (k1 k2 : option (Z * Z * Z)) : bool :=
  match k1, k2 with
  | Some a, Some b => f a b
  | _, _ => false
  end.

(** The key of a primitive float. *)
Definition fkey (x : float) : option (Z * Z * Z) := key (Prim2SF x).

Ltac z_bools :=
  repeat match goal with
         | |- context [Z.ltb ?a ?b] => destruct (Z.ltb_spec a b)
         | |- context [Z.leb ?a ?b] => destruct (Z.leb_spec a b)
         | |- context [Z.eqb ?a ?b] => destruct (Z.eqb_spec a b)
         end.

Ltac sf_cases x y :=
  destruct x as [[|]|[|]| |[|] ? ?], y as [[|]|[|]| |[|] ? ?];
  try reflexivity;
  cbv beta iota delta [SFltb SFleb SFcompare key cmp2 lex_ltb lex_leb];
  rewrite ?Pos.compare_cont_spec; cbv beta iota delta [Pos.switch_Eq];
  match goal with
  | |- context [Z.compare ?a ?b] =>
      destruct (Z.compare_spec a b);
      match goal with
      | |- context [Pos.compare ?p ?q] => destruct (Pos.compare_spec p q)
      | _ => idtac
      end
  end;
  cbv beta iota delta [CompOpp]; z_bools; simpl; try reflexivity; lia.

Lemma SFltb_key (x y : spec_float) :
  SFltb x y = cmp2 lex_ltb (key x) (key y).
Proof. sf_cases x y. Qed.

Lemma SFleb_key (x y : spec_float) :
  SFleb x y = cmp2 lex_leb (key x) (key y).
Proof. sf_cases x y. Qed.

Lemma ltb_fkey (a b : float) :
  (a <? b)%float = cmp2 lex_ltb (fkey a) (fkey b).
Proof. rewrite ltb_spec. apply SFltb_key. Qed.

Lemma leb_fkey (a b : float) :
  (a <=? b)%float = cmp2 lex_leb (fkey a) (fkey b).
Proof. rewrite leb_spec. apply SFleb_key. Qed.

(** ** A decision procedure for the order

    Every comparison is rewritten to its keys; the key of a literal is
    computed, the key of any other float is split into [nan] and a
    triple of integers, and linear arithmetic does the rest. *)

Ltac split_key t :=
  let k := fresh "k" in
  let E := fresh "E" in
  remember (fkey t) as k eqn:E in *; clear E;
  destruct k as [[[? ?] ?]|].

Ltac key_of t :=
  tryif is_var t then split_key t
  else
    let v := eval vm_compute in (fkey t) in
    lazymatch v with
    | Some (_, _, _) =>
        let E := fresh "E" in
        assert (E : fkey t = v) by (vm_compute; reflexivity);
        rewrite E in *; clear E
    | _ => split_key t
    end.

Ltac float_keys :=
  repeat match goal with
         | H : context [fkey ?t] |- _ => key_of t
         | |- context [fkey ?t] => key_of t
         end.

Ltac bools_to_props :=
  repeat match goal with
         | H : _ = false |- _ => apply not_true_iff_false in H
         | |- _ = false => apply not_true_iff_false
         end;
  rewrite ?orb_true_iff, ?andb_true_iff, ?negb_true_iff,
    ?Z.ltb_lt, ?Z.leb_le, ?Z.eqb_eq in *.

Ltac float_order :=
  unfold PyFloat.gtb, PyFloat.geb, PyFloat.is_number in *;
  rewrite ?ltb_fkey, ?leb_fkey in *;
  float_keys;
  cbv beta iota delta [cmp2 lex_ltb lex_leb] in *;
  try discriminate; try reflexivity;
  bools_to_props;
  try discriminate; try lia; intuition lia.

(** ** The order laws the protocol relies on *)

Section Laws.
Local Open Scope float_scope.
Variables a b c : float.


Lemma leb_trans : (a <=? b) = true -> (b <=? c) = true -> (a <=? c) = true.
Proof. intros; float_order. Qed.

Lemma leb_ltb_trans : (a <=? b) = true -> (b <? c) = true -> (a <? c) = true.
Proof. intros; float_order. Qed.

Lemma ltb_leb_trans : (a <? b) = true -> (b <=? c) = true -> (a <? c) = true.
Proof. intros; float_order. Qed.

Lemma ltb_leb : (a <? b) = true -> (a <=? b) = true.
Proof. intros; float_order. Qed.

Lemma ltb_not_leb : (a <? b) = true -> (b <=? a) = false.
Proof. intros; float_order. Qed.

Lemma leb_not_ltb : (a <=? b) = true -> (b <? a) = false.
Proof. intros; float_order. Qed.

(** Two numbers are always comparable. *)
Lemma not_ltb_leb :
  PyFloat.is_number a = true -> PyFloat.is_number b = true ->
  (a <? b) = false -> (b <=? a) = true.
Proof. intros; float_order. Qed.

(** Whatever compares with something is a number. *)
Lemma leb_is_number :
  (a <=? b) = true -> PyFloat.is_number a = true /\ PyFloat.is_number b = true.
Proof. intros; split; float_order. Qed.

Lemma ltb_is_number :
  (a <? b) = true -> PyFloat.is_number a = true /\ PyFloat.is_number b = true.
Proof. intros; split; float_order. Qed.

End Laws.

End FloatOrder.

(* ================================================================== *)
(** * Facts of binary64 arithmetic *)

Module FloatArith.

Local Open Scope Z_scope.

Section Rounding.
Variables prec emax : Z.

Lemma shr_1_nonneg (mrs : shr_record) :
  0 <= shr_m mrs -> 0 <= shr_m (shr_1 mrs).
Proof.
  destruct mrs as [m r s]; simpl.
  destruct m as [|[p|p|]|[p|p|]]; simpl; lia.
Qed.

Lemma iter_shr_1_nonneg (p : positive) :
  forall mrs, 0 <= shr_m mrs -> 0 <= shr_m (iter_pos shr_1 p mrs).
Proof.
  induction p as [p IH|p IH|]; intros mrs H; simpl.
  - apply IH, IH, shr_1_nonneg, H.
  - apply IH, IH, H.
  - apply shr_1_nonneg, H.
Qed.

Lemma shr_nonneg (mrs : shr_record) (e n : Z) :
  0 <= shr_m mrs -> 0 <= shr_m (fst (shr mrs e n)).
Proof.
  intros H. destruct n; simpl; auto using iter_shr_1_nonneg.
Qed.

Lemma shr_fexp_nonneg (m e : Z) (l : location) :
  0 <= m -> 0 <= shr_m (fst (shr_fexp prec emax m e l)).
Proof.
  intros H. unfold shr_fexp. apply shr_nonneg.
  destruct l as [|[]]; exact H.
Qed.

Lemma round_nearest_even_nonneg (m : Z) (l : location) :
  0 <= m -> 0 <= round_nearest_even m l.
Proof.
  intros H. destruct l as [|[]]; simpl; try lia.
  destruct (Z.even m); lia.
Qed.

(** Rounding a non-negative mantissa never gives [nan]. *)
Lemma binary_round_aux_not_nan (s : bool) (m e : Z) (l : location) :
  0 <= m -> binary_round_aux prec emax s m e l <> S754_nan.
Proof.
  intros H. unfold binary_round_aux.
  pose proof (shr_fexp_nonneg m e l H) as H1.
  destruct (shr_fexp prec emax m e l) as [mrs' e']; simpl in H1.
  pose proof (shr_fexp_nonneg _ e' loc_Exact
                (round_nearest_even_nonneg _ (loc_of_shr_record mrs') H1)) as H2.
  destruct (shr_fexp prec emax _ e' loc_Exact) as [mrs'' e'']; simpl in H2.
  destruct (shr_m mrs''); try lia; try discriminate.
  destruct (e'' <=? emax - prec); discriminate.
Qed.

Lemma binary_normalize_not_nan (m e : Z) (sz : bool) :
  binary_normalize prec emax m e sz <> S754_nan.
Proof.
  destruct m; simpl; try discriminate; unfold binary_round;
    destruct (shl_align _ _ _); apply binary_round_aux_not_nan; lia.
Qed.

(** [x + (-y)] and [x - y] are the same operation. *)
Lemma SFadd_opp (x y : spec_float) :
  SFadd prec emax x (SFopp y) = SFsub prec emax x y.
Proof.
  destruct x as [[]|[]| |sx mx ex], y as [[]|[]| |[] my ey];
    try reflexivity; simpl; f_equal;
    unfold cond_Zopp; cbn [negb]; lia.
Qed.

(** A finite value minus a number is a number. *)
Lemma SFsub_not_nan (x y : spec_float) :
  x <> S754_nan -> (forall s, x <> S754_infinity s) -> y <> S754_nan ->
  SFsub prec emax x y <> S754_nan.
Proof.
  intros Hx Hi Hy.
  destruct x as [sx|sx| |sx mx ex]; try congruence;
    try (exfalso; apply (Hi sx); reflexivity);
    destruct y as [sy|sy| |sy my ey]; try congruence; simpl;
    try discriminate.
  - destruct sx, sy; discriminate.
  - apply binary_normalize_not_nan.
Qed.

End Rounding.

Lemma SFleb_refl (x : spec_float) : x <> S754_nan -> SFleb x x = true.
Proof.
  intros H. rewrite FloatOrder.SFleb_key.
  destruct x as [[]|[]| |[] m e]; try congruence; simpl;
    rewrite ?Z.ltb_irrefl, ?Z.eqb_refl, ?Z.leb_refl; reflexivity.
Qed.

Lemma SFleb_refl_inv (x : spec_float) : SFleb x x = true -> x <> S754_nan.
Proof. intros H E; subst x; discriminate H. Qed.

Local Open Scope float_scope.

(** [a + (-b) = a - b] on Python floats. *)
Lemma add_opp (a b : float) : a + (- b) = a - b.
Proof.
  apply Prim2SF_inj.
  rewrite add_spec, opp_spec, sub_spec. apply SFadd_opp.
Qed.

(** The difference of a finite float and a number is a number. *)
Lemma sub_is_number (a b : float) :
  (neg_infinity <? a) = true -> (a <? infinity) = true ->
  PyFloat.is_number b = true ->
  PyFloat.is_number (a - b) = true.
Proof.
  unfold PyFloat.is_number. rewrite !ltb_spec, !leb_spec, sub_spec.
  change (Prim2SF neg_infinity) with (S754_infinity true).
  change (Prim2SF infinity) with (S754_infinity false).
  intros H1 H2 H3. apply SFleb_refl, SFsub_not_nan.
  - intros E; rewrite E in H1; discriminate.
  - intros [] E; rewrite E in *; discriminate.
  - apply SFleb_refl_inv, H3.
Qed.

End FloatArith.

(* ================================================================== *)
(** * Properties of [get_deltas] *)

Local Open Scope string_scope.
Local Open Scope float_scope.

(** [get_deltas] has no [raise]: every path ends in a [return]. *)
Lemma get_deltas_returns (flow : float) :
  exists d, get_deltas flow = Returned d.
Proof.
  unfold get_deltas.
  repeat match goal with
         | |- context [if ?c then _ else _] => destruct c
         end; eexists; reflexivity.
Qed.

(** X22: the last [return] of [get_deltas] is the one [nan] takes, and
    nothing else does. *)
Lemma get_deltas_fallback (flow : float) :
  get_deltas flow = Returned {| delta1 := 0; delta2 := 0 |} <->
  PyFloat.is_number flow = false.
Proof.
  unfold get_deltas. split.
  - repeat match goal with
           | |- context [if ?c then _ else _] => destruct c eqn:?
           end; try discriminate.
    intros _. FloatOrder.float_order.
  - intros H.
    assert (forall c, (flow <? c) = false) as L
        by (intros c; destruct (flow <? c) eqn:E; [|reflexivity];
            apply FloatOrder.ltb_is_number in E; destruct E; congruence).
    assert (forall c, (c <=? flow) = false) as G
        by (intros c; destruct (c <=? flow) eqn:E; [|reflexivity];
            apply FloatOrder.leb_is_number in E; destruct E; congruence).
    unfold PyFloat.geb. rewrite !L, !G. reflexivity.
Qed.




Ltac split_ifs :=
  repeat match goal with
         | |- context [if ?c then _ else _] => destruct c eqn:?
         end.

(** C4: [get_deltas] at the sample flows of the specification, and on
    every non-negative flow: it returns the pair of the band of the flow,
    and the second delta is twice the first. *)
Theorem get_deltas_band_table :
  get_deltas 3.9 = Returned {| delta1 := 0.5; delta2 := 1.0 |} /\
  get_deltas 4.0 = Returned {| delta1 := 1.0; delta2 := 2.0 |} /\
  get_deltas 6.4 = Returned {| delta1 := 1.0; delta2 := 2.0 |} /\
  get_deltas 6.5 = Returned {| delta1 := 1.5; delta2 := 3.0 |} /\
  get_deltas 9.9 = Returned {| delta1 := 1.5; delta2 := 3.0 |} /\
  get_deltas 25.0 = Returned {| delta1 := 5.0; delta2 := 10.0 |} /\
  get_deltas 999.0 = Returned {| delta1 := 5.0; delta2 := 10.0 |} /\
  forall flow : float, (0 <=? flow) = true ->
    exists d, get_deltas flow = Returned d /\
              band_table flow d /\
              delta2 d = 2 * delta1 d.
Proof.
  repeat (split; [reflexivity|]).
  intros flow H. unfold get_deltas, band_table, in_band.
  split_ifs; eexists; (split; [reflexivity|]); (split; [|reflexivity]);
    repeat split; intros; try reflexivity; try congruence;
    exfalso; FloatOrder.float_order.
Qed.

Lemma get_deltas_band_table_witness :
  exists d, get_deltas 4.2 = Returned d /\
            band_table 4.2 d /\
            delta2 d = 2 * delta1 d.
Proof.
  apply (proj2 (proj2 (proj2 (proj2 (proj2 (proj2 (proj2
           get_deltas_band_table)))))) 4.2).
  reflexivity.
Defined.

(** The band of a non-negative flow, with the pair [get_deltas] returns. *)
Lemma get_deltas_cases (flow : float) :
  (0 <=? flow) = true ->
  ((flow <? 4) = true /\
   get_deltas flow = Returned {| delta1 := 0.5; delta2 := 1.0 |}) \/
  ((4 <=? flow) = true /\ (flow <? 6.5) = true /\
   get_deltas flow = Returned {| delta1 := 1.0; delta2 := 2.0 |}) \/
  ((6.5 <=? flow) = true /\ (flow <? 10) = true /\
   get_deltas flow = Returned {| delta1 := 1.5; delta2 := 3.0 |}) \/
  ((10 <=? flow) = true /\ (flow <? 15) = true /\
   get_deltas flow = Returned {| delta1 := 2.0; delta2 := 4.0 |}) \/
  ((15 <=? flow) = true /\ (flow <? 20) = true /\
   get_deltas flow = Returned {| delta1 := 3.0; delta2 := 6.0 |}) \/
  ((20 <=? flow) = true /\ (flow <? 25) = true /\
   get_deltas flow = Returned {| delta1 := 4.0; delta2 := 8.0 |}) \/
  ((25 <=? flow) = true /\
   get_deltas flow = Returned {| delta1 := 5.0; delta2 := 10.0 |}).
Proof.
  intros H. unfold get_deltas, PyFloat.geb.
  destruct (flow <? 4) eqn:E1; [tauto|].
  destruct ((4 <=? flow) && (flow <? 6.5)) eqn:E2;
    [apply andb_prop in E2; tauto|].
  destruct ((6.5 <=? flow) && (flow <? 10)) eqn:E3;
    [apply andb_prop in E3; tauto|].
  destruct ((10 <=? flow) && (flow <? 15)) eqn:E4;
    [apply andb_prop in E4; tauto|].
  destruct ((15 <=? flow) && (flow <? 20)) eqn:E5;
    [apply andb_prop in E5; tauto|].
  destruct ((20 <=? flow) && (flow <? 25)) eqn:E6;
    [apply andb_prop in E6; tauto|].
  destruct (25 <=? flow) eqn:E7; [tauto|].
  exfalso. FloatOrder.float_order.
Qed.

(** C8: on non-negative flows [get_deltas] always returns a pair, and both
    fields of the pair grow (weakly) with the flow. *)
Theorem get_deltas_monotone (a b : float) :
  (0 <=? a) = true -> (a <=? b) = true ->
  exists da db,
    get_deltas a = Returned da /\ get_deltas b = Returned db /\
    (delta1 da <=? delta1 db) = true /\ (delta2 da <=? delta2 db) = true.
Proof.
  intros H0 Hab.
  pose proof (FloatOrder.leb_trans _ _ _ H0 Hab) as Hb.
  pose proof (get_deltas_cases a H0) as Ca.
  pose proof (get_deltas_cases b Hb) as Cb.
  clear H0 Hb.
  repeat match goal with
         | H : _ \/ _ |- _ => destruct H as [H|H]
         | H : _ /\ _ |- _ => destruct H as [? H]
         end;
    rewrite Ca, Cb; do 2 eexists;
    (split; [reflexivity|]); (split; [reflexivity|]);
    cbn [delta1 delta2]; try (split; reflexivity);
    exfalso; clear Ca Cb; FloatOrder.float_order.
Qed.

Lemma get_deltas_monotone_witness :
  exists da db,
    get_deltas 3.9 = Returned da /\ get_deltas 12 = Returned db /\
    (delta1 da <=? delta1 db) = true /\ (delta2 da <=? delta2 db) = true.
Proof. apply (get_deltas_monotone 3.9 12); reflexivity. Defined.

(* ================================================================== *)
(** * Properties of [calculate_insulin_adjustment] *)

(** Reading the fields of the local variables after a block of
    assignments. *)
Ltac vars_simpl :=
  cbv beta iota zeta delta
    [recommendation_of hypoglycemia hold decrease1 pause_decrease2
     increase1 increase2 default_vars add_calculation_summary
     set_action_title set_details set_new_flow set_is_critical
     set_color_class set_icon set_new_flow_rate_info set_calculation_summary
     action_title v_details new_flow is_critical color_class v_icon
     original_flow_rate_info new_flow_rate_info calculation_summary
     actionTitle details newFlowRateInfo originalFlowRateInfo
     calculationSummary isCritical colorClass icon].

Tactic Notation "vars_simpl" "in" hyp(H) :=
  cbv beta iota zeta delta
    [recommendation_of hypoglycemia hold decrease1 pause_decrease2
     increase1 increase2 default_vars add_calculation_summary
     set_action_title set_details set_new_flow set_is_critical
     set_color_class set_icon set_new_flow_rate_info set_calculation_summary
     action_title v_details new_flow is_critical color_class v_icon
     original_flow_rate_info new_flow_rate_info calculation_summary
     actionTitle details newFlowRateInfo originalFlowRateInfo
     calculationSummary isCritical colorClass icon] in H.

(** Take the next [if]: its [then] branch ends as [C] says. *)
Ltac next_branch C :=
  match goal with
  | |- context [if ?c then _ else _] => destruct c; [apply C|]
  end.

Lemma protocol_ends (cg pg flow : float) (d : Deltas) :
  protocol_end cg pg flow d (protocol cg pg flow d).
Proof.
  unfold protocol.
  next_branch end_hypoglycemia.
  destruct (_ && _).
  { unfold band_75_100.
    next_branch end_hold. next_branch end_decrease1.
    next_branch end_pause_decrease2. apply end_unmatched. }
  destruct (_ && _).
  { unfold band_100_140.
    next_branch end_increase1. next_branch end_hold.
    next_branch end_decrease1. next_branch end_pause_decrease2.
    apply end_unmatched. }
  destruct (_ && _).
  { unfold band_140_200.
    next_branch end_increase2. next_branch end_increase1.
    next_branch end_hold. next_branch end_decrease1.
    next_branch end_pause_decrease2. apply end_unmatched. }
  destruct (_ >=? _).
  { unfold band_200.
    next_branch end_increase2. next_branch end_increase1.
    next_branch end_hold. next_branch end_decrease1.
    next_branch end_pause_decrease2. apply end_unmatched. }
  apply end_no_band.
Qed.

(** A valid input gets past both early returns. *)
Lemma run_valid (data : InsulinCalculatorFormData) :
  valid_input data = true ->
  exists d,
    get_deltas (currentInsulinFlow data) = Returned d /\
    run data =
      Completed (protocol (currentGlucose data) (previousGlucose data)
                          (currentInsulinFlow data) d).
Proof.
  intros V. destruct (get_deltas_returns (currentInsulinFlow data)) as [d Hd].
  exists d. split; [exact Hd|]. unfold run. rewrite V, Hd. reflexivity.
Qed.

Lemma run_invalid (data : InsulinCalculatorFormData) :
  valid_input data = false -> run data = EarlyReturn error_en_datos.
Proof. intros V. unfold run. rewrite V. reflexivity. Qed.

(** [max(0.0, x)] is never negative, and never [nan]. *)
Lemma max_0_nonneg (x : float) : (0 <=? PyFloat.max 0 x) = true.
Proof.
  unfold PyFloat.max, PyFloat.gtb. destruct (0 <? x) eqn:E.
  - apply FloatOrder.ltb_leb, E.
  - reflexivity.
Qed.

Lemma max_0_not_negative (x : float) : (PyFloat.max 0 x <? 0) = false.
Proof. apply FloatOrder.leb_not_ltb, max_0_nonneg. Qed.

(** C1: a valid input with a current glucose under 75 gets the
    hypoglycemia recommendation and the flow 0.0, whatever the previous
    glucose (hence the glucose change) is. *)
Theorem hypoglycemia_suspends (data : InsulinCalculatorFormData) :
  valid_input data = true ->
  (currentGlucose data <? 75) = true ->
  let r := calculate_insulin_adjustment data in
  (exists v, run data = Completed v /\ new_flow v = 0.0) /\
  actionTitle r = "¡HIPOGLUCEMIA!" /\
  details r =
    ["Glucosa actual (" ++ fmt0 (currentGlucose data) ++ ") < 75.0. CONSIDERAR SUSPENDER.";
     "Administrar carbohidratos según protocolo.";
     "Evaluar causa."] /\
  newFlowRateInfo r = "Nuevo flujo sugerido: 0.0 cc/h (SUSPENDER)" /\
  isCritical r = true /\
  colorClass r = "error" /\
  icon r = "🚨".
Proof.
  intros V H r. subst r.
  destruct (run_valid data V) as (d & _ & R).
  unfold calculate_insulin_adjustment. rewrite R.
  unfold protocol. change GLUCOSE_TARGET_LOW_1 with 75. rewrite H.
  split; [eexists; split; reflexivity|].
  repeat split.
Qed.

Lemma hypoglycemia_suspends_witness :
  let r := calculate_insulin_adjustment (mkFormData 70 90 5) in
  (exists v, run (mkFormData 70 90 5) = Completed v /\ new_flow v = 0.0) /\
  actionTitle r = "¡HIPOGLUCEMIA!" /\
  details r =
    ["Glucosa actual (" ++ fmt0 70 ++ ") < 75.0. CONSIDERAR SUSPENDER.";
     "Administrar carbohidratos según protocolo.";
     "Evaluar causa."] /\
  newFlowRateInfo r = "Nuevo flujo sugerido: 0.0 cc/h (SUSPENDER)" /\
  isCritical r = true /\
  colorClass r = "error" /\
  icon r = "🚨".
Proof. apply (hypoglycemia_suspends (mkFormData 70 90 5)); reflexivity. Defined.

(** C3: the result is the input-error recommendation exactly when the
    validation condition fails. *)
Theorem error_en_datos_iff_invalid (data : InsulinCalculatorFormData) :
  (calculate_insulin_adjustment data = error_en_datos <->
   (currentGlucose data >? 0) && (previousGlucose data >? 0)
   && (currentInsulinFlow data >=? 0) = false)
  /\ actionTitle error_en_datos = "ERROR EN DATOS"
  /\ newFlowRateInfo error_en_datos = "N/A"
  /\ originalFlowRateInfo error_en_datos = "N/A"
  /\ calculationSummary error_en_datos = None
  /\ isCritical error_en_datos = true
  /\ colorClass error_en_datos = "error".
Proof.
  split; [|repeat split]. fold (valid_input data). split.
  - intros E. destruct (valid_input data) eqn:V; [|reflexivity].
    destruct (run_valid data V) as (d & _ & R).
    unfold calculate_insulin_adjustment in E. rewrite R in E.
    apply (f_equal calculationSummary) in E. discriminate E.
  - intros V. unfold calculate_insulin_adjustment.
    rewrite (run_invalid data V). reflexivity.
Qed.

(** The local variables at the final [return] of a valid call, with the
    deltas of the entered flow and the block of assignments that ran. *)
Lemma run_valid_end (data : InsulinCalculatorFormData) :
  valid_input data = true ->
  exists d v,
    get_deltas (currentInsulinFlow data) = Returned d /\
    run data = Completed v /\
    calculate_insulin_adjustment data = recommendation_of v /\
    protocol_end (currentGlucose data) (previousGlucose data)
                 (currentInsulinFlow data) d v.
Proof.
  intros V. destruct (run_valid data V) as (d & Hd & R).
  exists d. eexists. split; [exact Hd|]. split; [exact R|].
  split; [|apply protocol_ends].
  unfold calculate_insulin_adjustment. rewrite R. reflexivity.
Qed.

(** The decrease of the specification's example: flow 0.3, one delta of
    0.5, floored at 0.0. *)
Example decrease_floored_at_zero :
  run (mkFormData 80 90 0.3) =
  Completed
    {| action_title := "DISMINUIR FLUJO (1 Delta)";
       v_details := ["Glucosa 75-99, estable o descenso < 25. Disminuir 0.5."];
       new_flow := 0.0;
       is_critical := false;
       color_class := "info";
       v_icon := "⬇️";
       original_flow_rate_info := "Flujo actual: 0.3 cc/h";
       new_flow_rate_info := "Nuevo: 0.0";
       calculation_summary :=
         "Cambio de glucosa: -10 mg/dL (90 -> 80 mg/dL). Rango: 75-100. Δ: -0.5." |}.
Proof. vm_compute. reflexivity. Qed.

(** C10: on a valid input, a result of severity "success" is a hold: the
    flow is the entered one and the flow line is the "Mantener" one. *)
Theorem success_keeps_flow (data : InsulinCalculatorFormData) :
  valid_input data = true ->
  colorClass (calculate_insulin_adjustment data) = "success" ->
  (exists v, run data = Completed v /\
             new_flow v = currentInsulinFlow data) /\
  actionTitle (calculate_insulin_adjustment data) = "CONTINUAR SIN CAMBIOS" /\
  newFlowRateInfo (calculate_insulin_adjustment data) =
    "Mantener: " ++ fmt1 (currentInsulinFlow data).
Proof.
  intros V. destruct (run_valid_end data V) as (d & v & _ & R & E & PE).
  rewrite E. clear E V. intros H.
  destruct PE; vars_simpl in H; try discriminate H.
  split; [eexists; split; [exact R|reflexivity]|].
  split; reflexivity.
Qed.

Lemma success_keeps_flow_witness :
  (exists v, run (mkFormData 110 85 3.0) = Completed v /\ new_flow v = 3.0) /\
  actionTitle (calculate_insulin_adjustment (mkFormData 110 85 3.0)) =
    "CONTINUAR SIN CAMBIOS" /\
  newFlowRateInfo (calculate_insulin_adjustment (mkFormData 110 85 3.0)) =
    "Mantener: " ++ fmt1 3.0.
Proof.
  apply (success_keeps_flow (mkFormData 110 85 3.0)); reflexivity.
Defined.

(** C9: the summary is absent exactly in the input-error result; the
    internal-error result is never returned, [get_deltas] returning a pair
    on every flow. *)
Theorem calculation_summary_absent_iff_error (data : InsulinCalculatorFormData) :
  let r := calculate_insulin_adjustment data in
  (calculationSummary r = None <-> r = error_en_datos) /\
  (forall e, r <> error_interno e (currentInsulinFlow data)) /\
  actionTitle r <> "ERROR INTERNO" /\
  (forall flow, exists d, get_deltas flow = Returned d) /\
  (forall e flow, calculationSummary (error_interno e flow) = None).
Proof.
  intros r. subst r.
  assert (T : actionTitle (calculate_insulin_adjustment data) <> "ERROR INTERNO").
  { destruct (valid_input data) eqn:V.
    - destruct (run_valid_end data V) as (d & v & _ & _ & E & PE).
      rewrite E. destruct PE; vars_simpl; intros H;
        vm_compute in H; discriminate H.
    - unfold calculate_insulin_adjustment. rewrite (run_invalid data V).
      discriminate. }
  split; [|split; [|split; [exact T|split]]].
  - destruct (valid_input data) eqn:V.
    + destruct (run_valid_end data V) as (d & v & _ & _ & E & _).
      rewrite E. split; intros H; [discriminate H|].
      apply (f_equal calculationSummary) in H. discriminate H.
    + unfold calculate_insulin_adjustment. rewrite (run_invalid data V).
      split; reflexivity.
  - intros e H. apply T. rewrite H. reflexivity.
  - apply get_deltas_returns.
  - reflexivity.
Qed.

(** ** The glucose bands *)

(** A current glucose in [[75, 100)] selects the second block. *)
Lemma protocol_band_75_100 (cg pg flow : float) (d : Deltas) :
  (75 <=? cg) = true -> (cg <? 100) = true ->
  protocol cg pg flow d = band_75_100 cg pg flow d (default_vars cg pg flow).
Proof.
  intros L U. unfold protocol.
  change GLUCOSE_TARGET_LOW_1 with 75. change GLUCOSE_TARGET_LOW_2 with 100.
  rewrite (FloatOrder.leb_not_ltb _ _ L), L, U. reflexivity.
Qed.

(** A current glucose in [[100, 140)] selects the third block. *)
Lemma protocol_band_100_140 (cg pg flow : float) (d : Deltas) :
  (100 <=? cg) = true -> (cg <? 140) = true ->
  protocol cg pg flow d = band_100_140 cg pg flow d (default_vars cg pg flow).
Proof.
  intros L U. unfold protocol.
  change GLUCOSE_TARGET_LOW_1 with 75. change GLUCOSE_TARGET_LOW_2 with 100.
  change GLUCOSE_TARGET_MID_1 with 140.
  assert (A : (cg <? 75) = false) by (clear U; FloatOrder.float_order).
  rewrite A, (FloatOrder.leb_not_ltb _ _ L), andb_false_r, L, U. reflexivity.
Qed.

(** A glucose change strictly between -26 and -25 meets none of the four
    conditions of the band [[100, 140)]. *)
Lemma gap_26_25 (c : float) :
  (-26 <? c) = true -> (c <? -25) = true ->
  (c >? 25) = false /\ (-25 <? c) = false /\
  (c <=? -26) = false /\ (c <? -50) = false.
Proof. intros L U. repeat split; FloatOrder.float_order. Qed.

(** C6: a valid input with a current glucose in [[100, 140)] and a glucose
    change strictly between -26 and -25 ends with the default values: the
    review title, severity warning, not critical, flow unchanged. *)
Theorem gap_100_140_default (data : InsulinCalculatorFormData) :
  valid_input data = true ->
  (100 <=? currentGlucose data) = true ->
  (currentGlucose data <? 140) = true ->
  (-26 <? glucose_change_of data) = true ->
  (glucose_change_of data <? -25) = true ->
  let r := calculate_insulin_adjustment data in
  (exists v, run data = Completed v /\
             new_flow v = currentInsulinFlow data) /\
  actionTitle r = "Revisar Datos/Protocolo" /\
  details r =
    ["Los valores ingresados no generaron una recomendación estándar. Verifique los datos o consulte el protocolo clínico."] /\
  newFlowRateInfo r =
    "Mantener flujo: " ++ fmt1 (currentInsulinFlow data) ++ " cc/h" /\
  isCritical r = false /\
  colorClass r = "warning" /\
  icon r = "❓".
Proof.
  intros V L U GL GU r. subst r.
  destruct (run_valid data V) as (d & _ & R).
  unfold calculate_insulin_adjustment. rewrite R.
  assert (E : protocol (currentGlucose data) (previousGlucose data)
                       (currentInsulinFlow data) d =
              add_calculation_summary " Rango: 100-140."
                (default_vars (currentGlucose data) (previousGlucose data)
                              (currentInsulinFlow data))).
  { rewrite (protocol_band_100_140 _ _ _ _ L U).
    unfold band_100_140, glucose_change_of in *. cbv zeta.
    destruct (gap_26_25 _ GL GU) as (C1 & C2 & C3 & C4).
    rewrite C1, C2, C3, C4, andb_false_r. reflexivity. }
  rewrite E. split; [eexists; split; reflexivity|]. repeat split.
Qed.

Lemma gap_100_140_default_witness :
  let r := calculate_insulin_adjustment (mkFormData 120 145.5 5.0) in
  (exists v, run (mkFormData 120 145.5 5.0) = Completed v /\
             new_flow v = 5.0) /\
  actionTitle r = "Revisar Datos/Protocolo" /\
  details r =
    ["Los valores ingresados no generaron una recomendación estándar. Verifique los datos o consulte el protocolo clínico."] /\
  newFlowRateInfo r = "Mantener flujo: " ++ fmt1 5.0 ++ " cc/h" /\
  isCritical r = false /\
  colorClass r = "warning" /\
  icon r = "❓".
Proof.
  apply (gap_100_140_default (mkFormData 120 145.5 5.0)); reflexivity.
Defined.

(** The three conditions of the band [[75, 100)] on a number. *)
Lemma conditions_75_100_exactly_one (c : float) :
  PyFloat.is_number c = true ->
  exactly_one (c >? 0) ((0 >=? c) && (c >? -25)) (c <=? -25).
Proof.
  intros N. unfold exactly_one.
  destruct (c >? 0) eqn:A, ((0 >=? c) && (c >? -25)) eqn:B,
    (c <=? -25) eqn:C;
    first [solve [intuition congruence] | exfalso; FloatOrder.float_order].
Qed.

(** In the band [[75, 100)] the glucose change is a number: the current
    glucose is finite and the previous one is positive. *)
Lemma glucose_change_is_number (data : InsulinCalculatorFormData) :
  valid_input data = true ->
  (75 <=? currentGlucose data) = true ->
  (currentGlucose data <? 100) = true ->
  PyFloat.is_number (glucose_change_of data) = true.
Proof.
  destruct data as [cg pg flow]. unfold valid_input, glucose_change_of.
  cbn [currentGlucose previousGlucose currentInsulinFlow].
  intros V L U.
  apply andb_prop in V as [V _]. apply andb_prop in V as [_ V].
  apply FloatArith.sub_is_number.
  - clear V U. FloatOrder.float_order.
  - clear V L. FloatOrder.float_order.
  - clear L U. FloatOrder.float_order.
Qed.

(** C7: the three conditions of the band [[75, 100)] are exhaustive and
    exclusive on every number; on a valid input of that band exactly one
    holds, its sub-branch is the one that runs, and the default values are
    never the result. *)
Theorem band_75_100_exhaustive :
  (forall c : float,
      PyFloat.is_number c = true ->
      exactly_one (c >? 0) ((0 >=? c) && (c >? -25)) (c <=? -25)) /\
  (forall data : InsulinCalculatorFormData,
      valid_input data = true ->
      (75 <=? currentGlucose data) = true ->
      (currentGlucose data <? 100) = true ->
      let c := glucose_change_of data in
      PyFloat.is_number c = true /\
      exactly_one (c >? 0) ((0 >=? c) && (c >? -25)) (c <=? -25) /\
      exists v,
        run data = Completed v /\
        ((c >? 0) = true -> action_title v = "CONTINUAR SIN CAMBIOS") /\
        ((0 >=? c) && (c >? -25) = true ->
         action_title v = "DISMINUIR FLUJO (1 Delta)") /\
        ((c <=? -25) = true ->
         action_title v = "PAUSAR (30 min) Y AJUSTAR (2 Deltas)") /\
        action_title v <> "Revisar Datos/Protocolo").
Proof.
  split; [exact conditions_75_100_exactly_one|].
  intros data V L U c.
  pose proof (glucose_change_is_number data V L U) as N. fold c in N.
  pose proof (conditions_75_100_exactly_one c N) as X.
  split; [exact N|]. split; [exact X|].
  destruct (run_valid data V) as (d & _ & R).
  eexists. split; [exact R|].
  rewrite (protocol_band_75_100 _ _ _ _ L U).
  unfold band_75_100. cbv zeta. fold (glucose_change_of data). fold c.
  destruct X as [(A & B & C)|[(A & B & C)|(A & B & C)]];
    rewrite A, B, ?C; vars_simpl;
    repeat split; intros; try discriminate; try reflexivity.
Qed.

Lemma band_75_100_exhaustive_witness :
  let c := glucose_change_of (mkFormData 80 90 0.3) in
  PyFloat.is_number c = true /\
  exactly_one (c >? 0) ((0 >=? c) && (c >? -25)) (c <=? -25) /\
  exists v,
    run (mkFormData 80 90 0.3) = Completed v /\
    ((c >? 0) = true -> action_title v = "CONTINUAR SIN CAMBIOS") /\
    ((0 >=? c) && (c >? -25) = true ->
     action_title v = "DISMINUIR FLUJO (1 Delta)") /\
    ((c <=? -25) = true ->
     action_title v = "PAUSAR (30 min) Y AJUSTAR (2 Deltas)") /\
    action_title v <> "Revisar Datos/Protocolo".
Proof.
  apply (proj2 band_75_100_exhaustive (mkFormData 80 90 0.3)); reflexivity.
Defined.

(** ** The worked examples of the protocol *)

(** Glucose 185 after 170 at 4.2 cc/h: one delta (1.0) more, 5.2 cc/h. *)
Example increase_one_delta :
  run (mkFormData 185 170 4.2) =
  Completed
    {| action_title := "AUMENTAR FLUJO (1 Delta)";
       v_details := ["Glucosa 140-199, aumento <= 50 o estable. Aumentar 1.0."];
       new_flow := 4.2 + 1.0;
       is_critical := false;
       color_class := "info";
       v_icon := "⬆️";
       original_flow_rate_info := "Flujo actual: 4.2 cc/h";
       new_flow_rate_info := "Nuevo: 5.2";
       calculation_summary :=
         "Cambio de glucosa: +15 mg/dL (170 -> 185 mg/dL). Rango: 140-200. Δ: +1.0." |}.
Proof. vm_compute. reflexivity. Qed.

(** Glucose 120 after 146 at 5.0 cc/h: a change of -26, one delta less. *)
Example decrease_at_minus_26 :
  run (mkFormData 120 146 5.0) =
  Completed
    {| action_title := "DISMINUIR FLUJO (1 Delta)";
       v_details := ["Glucosa 100-139, descenso 26-50. Disminuir 1.0."];
       new_flow := 4.0;
       is_critical := false;
       color_class := "info";
       v_icon := "⬇️";
       original_flow_rate_info := "Flujo actual: 5.0 cc/h";
       new_flow_rate_info := "Nuevo: 4.0";
       calculation_summary :=
         "Cambio de glucosa: -26 mg/dL (146 -> 120 mg/dL). Rango: 100-140. Δ: -1.0." |}.
Proof. vm_compute. reflexivity. Qed.

(** The inputs the validation rejects, and the smallest it accepts. *)
Example validation_samples :
  valid_input (mkFormData 0 10 1) = false /\
  valid_input (mkFormData 10 (-5) 1) = false /\
  valid_input (mkFormData 10 10 (-0.1)) = false /\
  valid_input (mkFormData nan 10 1) = false /\
  valid_input (mkFormData 1 1 0) = true.
Proof. repeat split. Qed.

(* ================================================================== *)
(** * Further properties of the protocol *)

(** What the validation guarantees of each field. *)
Lemma valid_input_fields (data : InsulinCalculatorFormData) :
  valid_input data = true ->
  (0 <? currentGlucose data) = true /\
  (0 <? previousGlucose data) = true /\
  (0 <=? currentInsulinFlow data) = true.
Proof.
  unfold valid_input, PyFloat.gtb, PyFloat.geb. intros V.
  apply andb_prop in V as [V F]. apply andb_prop in V as [C P]. auto.
Qed.

(** The band a current glucose selects, when it is a number. *)
Lemma protocol_by_band (cg pg flow : float) (d : Deltas) :
  PyFloat.is_number cg = true ->
  protocol cg pg flow d =
  let v := default_vars cg pg flow in
  if cg <? 75 then hypoglycemia cg v
  else if cg <? 100 then band_75_100 cg pg flow d v
  else if cg <? 140 then band_100_140 cg pg flow d v
  else if cg <? 200 then band_140_200 cg pg flow d v
  else band_200 cg pg flow d v.
Proof.
  intros N. unfold protocol. cbv zeta.
  change GLUCOSE_TARGET_LOW_1 with 75. change GLUCOSE_TARGET_LOW_2 with 100.
  change GLUCOSE_TARGET_MID_1 with 140. change GLUCOSE_TARGET_MID_2 with 200.
  destruct (cg <? 75) eqn:E1; [reflexivity|].
  assert (L1 : (75 <=? cg) = true) by FloatOrder.float_order. rewrite L1.
  destruct (cg <? 100) eqn:E2; [reflexivity|]. cbn [andb].
  assert (L2 : (100 <=? cg) = true) by FloatOrder.float_order. rewrite L2.
  destruct (cg <? 140) eqn:E3; [reflexivity|]. cbn [andb].
  assert (L3 : (140 <=? cg) = true) by FloatOrder.float_order. rewrite L3.
  destruct (cg <? 200) eqn:E4; [reflexivity|]. cbn [andb].
  assert (L4 : (cg >=? 200) = true) by FloatOrder.float_order. rewrite L4.
  reflexivity.
Qed.

(** The difference of a finite glucose and a positive one is a number. *)
Lemma finite_glucose_change_is_number (data : InsulinCalculatorFormData) :
  valid_input data = true ->
  (currentGlucose data <? infinity) = true ->
  PyFloat.is_number (glucose_change_of data) = true.
Proof.
  intros V U. destruct (valid_input_fields data V) as (C & P & _).
  destruct data as [cg pg flow]. unfold glucose_change_of.
  cbn [currentGlucose previousGlucose currentInsulinFlow] in *.
  apply FloatArith.sub_is_number.
  - clear P U. FloatOrder.float_order.
  - exact U.
  - clear C U. FloatOrder.float_order.
Qed.

(** The order procedure, with the comparisons of the keys left to [lia]. *)
Ltac float_lia :=
  unfold PyFloat.gtb, PyFloat.geb, PyFloat.is_number in *;
  rewrite ?FloatOrder.ltb_fkey, ?FloatOrder.leb_fkey in *;
  FloatOrder.float_keys;
  cbv beta iota delta
    [FloatOrder.cmp2 FloatOrder.lex_ltb FloatOrder.lex_leb] in *;
  try discriminate; try reflexivity; lia.

(** Reading the title of the result off the blocks of a band. *)
Ltac band_leaves :=
  cbv zeta; split_ifs; vars_simpl.

Ltac closed_title H := vm_compute in H; discriminate H.


(** The setting of a statement about one band: the input is valid, [R] is
    its run, and the glucose change is a variable of its own. *)
Ltac enter_band V R :=
  match type of V with
  | valid_input ?data = true =>
      let d := fresh "d" in
      destruct (run_valid data V) as (d & _ & R);
      unfold calculate_insulin_adjustment; rewrite R
  end.

(** X1: for a valid input with the current glucose in [[100, 140)], the
    result is the review default exactly when the glucose change [c] has
    [-26 < c <= -25]; the change -25 itself is in the gap. *)
Theorem review_default_band_100_140 (data : InsulinCalculatorFormData) :
  valid_input data = true ->
  (100 <=? currentGlucose data) = true ->
  (currentGlucose data <? 140) = true ->
  (actionTitle (calculate_insulin_adjustment data) = "Revisar Datos/Protocolo"
   <-> (-26 <? glucose_change_of data) && (glucose_change_of data <=? -25) = true).
Proof.
  intros V L U.
  assert (N : PyFloat.is_number (glucose_change_of data) = true).
  { apply finite_glucose_change_is_number; [exact V|].
    clear V L. destruct data as [cg pg flow]; cbn in *. float_lia. }
  enter_band V R.
  rewrite (protocol_band_100_140 _ _ _ _ L U).
  unfold band_100_140. fold (glucose_change_of data).
  generalize dependent (glucose_change_of data). intros c N.
  clear V L U R. band_leaves;
    (split; intros H;
     [try closed_title H; float_lia | try reflexivity; exfalso; float_lia]).
Qed.

Lemma review_default_band_100_140_witness :
  actionTitle (calculate_insulin_adjustment (mkFormData 120 145 5)) =
    "Revisar Datos/Protocolo".
Proof.
  apply (review_default_band_100_140 (mkFormData 120 145 5)); reflexivity.
Defined.

Lemma protocol_band_140_200 (cg pg flow : float) (d : Deltas) :
  (140 <=? cg) = true -> (cg <? 200) = true ->
  protocol cg pg flow d = band_140_200 cg pg flow d (default_vars cg pg flow).
Proof.
  intros L U. rewrite protocol_by_band by (clear U; float_lia). cbv zeta.
  replace (cg <? 75) with false by (clear U; float_lia).
  replace (cg <? 100) with false by (clear U; float_lia).
  replace (cg <? 140) with false by (clear U; float_lia).
  rewrite U. reflexivity.
Qed.

Lemma protocol_band_200 (cg pg flow : float) (d : Deltas) :
  (200 <=? cg) = true ->
  protocol cg pg flow d = band_200 cg pg flow d (default_vars cg pg flow).
Proof.
  intros L. rewrite protocol_by_band by float_lia. cbv zeta.
  replace (cg <? 75) with false by float_lia.
  replace (cg <? 100) with false by float_lia.
  replace (cg <? 140) with false by float_lia.
  replace (cg <? 200) with false by float_lia.
  reflexivity.
Qed.

(** X2: for a valid input with the current glucose in [[140, 200)], the
    result is the review default exactly when [-50 < c <= -49]; the
    change -49 itself is in the gap. *)
Theorem review_default_band_140_200 (data : InsulinCalculatorFormData) :
  valid_input data = true ->
  (140 <=? currentGlucose data) = true ->
  (currentGlucose data <? 200) = true ->
  (actionTitle (calculate_insulin_adjustment data) = "Revisar Datos/Protocolo"
   <-> (-50 <? glucose_change_of data) && (glucose_change_of data <=? -49) = true).
Proof.
  intros V L U.
  assert (N : PyFloat.is_number (glucose_change_of data) = true).
  { apply finite_glucose_change_is_number; [exact V|].
    clear V L. destruct data as [cg pg flow]; cbn in *. float_lia. }
  enter_band V R.
  rewrite (protocol_band_140_200 _ _ _ _ L U).
  unfold band_140_200. fold (glucose_change_of data).
  generalize dependent (glucose_change_of data). intros c N.
  clear V L U R. band_leaves;
    (split; intros H;
     [try closed_title H; float_lia | try reflexivity; exfalso; float_lia]).
Qed.

Lemma review_default_band_140_200_witness :
  actionTitle (calculate_insulin_adjustment (mkFormData 150 199 5)) =
    "Revisar Datos/Protocolo".
Proof.
  apply (review_default_band_140_200 (mkFormData 150 199 5)); reflexivity.
Defined.

(** X3: for a valid input with the current glucose at 200 or more, the
    result is the review default exactly when [-25 < c <= -24], or the
    change is [nan]. *)
Theorem review_default_band_200 (data : InsulinCalculatorFormData) :
  valid_input data = true ->
  (200 <=? currentGlucose data) = true ->
  (actionTitle (calculate_insulin_adjustment data) = "Revisar Datos/Protocolo"
   <-> PyFloat.is_number (glucose_change_of data) = false \/
       (-25 <? glucose_change_of data) && (glucose_change_of data <=? -24) = true).
Proof.
  intros V L.
  enter_band V R.
  rewrite (protocol_band_200 _ _ _ _ L).
  unfold band_200. fold (glucose_change_of data).
  generalize (glucose_change_of data). intros c.
  clear V L R. band_leaves;
    (split; intros H;
     [first [closed_title H
            | destruct (PyFloat.is_number c) eqn:N;
              [right; float_lia | left; reflexivity]]
     | try reflexivity; exfalso; destruct H as [H|H]; float_lia]).
Qed.

Lemma review_default_band_200_witness :
  actionTitle (calculate_insulin_adjustment (mkFormData 210 234 5)) =
    "Revisar Datos/Protocolo".
Proof.
  apply (review_default_band_200 (mkFormData 210 234 5));
    try reflexivity. right. reflexivity.
Defined.

(** The four bands above 75, for a number. *)
Ltac by_band N :=
  rewrite protocol_by_band by exact N; cbv zeta;
  unfold band_75_100, band_100_140, band_140_200, band_200; cbv zeta.

Lemma valid_glucose_is_number (data : InsulinCalculatorFormData) :
  valid_input data = true -> PyFloat.is_number (currentGlucose data) = true.
Proof.
  intros V. destruct (valid_input_fields data V) as (C & _ & _).
  destruct data as [cg pg flow]; cbn in *. float_lia.
Qed.

(** Two runs of the same block. *)
Ltac same_block :=
  lazymatch goal with
  | |- hypoglycemia _ _ = hypoglycemia _ _ => reflexivity
  | |- hold _ _ _ = hold _ _ _ => reflexivity
  | |- decrease1 _ _ _ _ = decrease1 _ _ _ _ => reflexivity
  | |- pause_decrease2 _ _ _ _ = pause_decrease2 _ _ _ _ => reflexivity
  | |- increase1 _ _ _ _ = increase1 _ _ _ _ => reflexivity
  | |- increase2 _ _ _ _ = increase2 _ _ _ _ => reflexivity
  | |- add_calculation_summary _ _ = add_calculation_summary _ _ => reflexivity
  end.

(** In one band of the current glucose, the four band tests are known. *)
Ltac band_flags cg b1 b2 b3 b4 :=
  replace (in_band 75 100 cg) with b1 by (unfold in_band; float_lia);
  replace (in_band 100 140 cg) with b2 by (unfold in_band; float_lia);
  replace (in_band 140 200 cg) with b3 by (unfold in_band; float_lia);
  replace (cg >=? 200) with b4 by float_lia;
  cbn [andb orb]; rewrite ?orb_false_r.

(** The block a number [cg] and a change [c] select. *)
Lemma protocol_blocks (cg pg flow : float) (d : Deltas) :
  PyFloat.is_number cg = true ->
  let c := cg - pg in
  let v0 := add_calculation_summary (band_label cg) (default_vars cg pg flow) in
  (decrease1_applies cg c = true ->
   exists details, protocol cg pg flow d = decrease1 flow d details v0) /\
  (pause_decrease2_applies cg c = true ->
   exists details, protocol cg pg flow d = pause_decrease2 flow d details v0) /\
  (increase1_applies cg c = true ->
   exists details, protocol cg pg flow d = increase1 flow d details v0) /\
  (increase2_applies cg c = true ->
   exists details, protocol cg pg flow d = increase2 flow d details v0) /\
  (decrease1_applies cg c = false ->
   pause_decrease2_applies cg c = false ->
   increase1_applies cg c = false ->
   increase2_applies cg c = false ->
   ((cg <? 75) = true /\
    protocol cg pg flow d = hypoglycemia cg (default_vars cg pg flow)) \/
   (exists details, protocol cg pg flow d = hold flow details v0) \/
   protocol cg pg flow d = v0).
Proof.
  intros N c v0. subst v0. rewrite protocol_by_band by exact N. cbv zeta.
  unfold band_label, decrease1_applies, pause_decrease2_applies,
    increase1_applies, increase2_applies,
    band_75_100, band_100_140, band_140_200, band_200.
  cbv zeta. fold c. clearbody c.
  destruct (cg <? 75) eqn:E1; [band_flags cg false false false false|].
  2: destruct (cg <? 100) eqn:E2; [band_flags cg true false false false|].
  3: destruct (cg <? 140) eqn:E3; [band_flags cg false true false false|].
  4: destruct (cg <? 200) eqn:E4;
       [band_flags cg false false true false
       |band_flags cg false false false true].
  all: clear;
    change (fmt0 GLUCOSE_TARGET_LOW_1) with "75";
    change (fmt0 GLUCOSE_TARGET_LOW_2) with "100";
    change (fmt0 GLUCOSE_TARGET_MID_1) with "140";
    change (fmt0 GLUCOSE_TARGET_MID_2) with "200";
    split_ifs;
    (split; [|split; [|split; [|split]]]); intros;
    first [ eexists; same_block
          | left; split; [reflexivity | same_block]
          | right; left; eexists; same_block
          | right; right; same_block
          | exfalso; float_lia ].
Qed.

(** The title each block leaves. *)
Lemma block_titles (cg pg flow : float) (d : Deltas) :
  PyFloat.is_number cg = true ->
  let c := cg - pg in
  let title := action_title (protocol cg pg flow d) in
  (decrease1_applies cg c = true -> title = "DISMINUIR FLUJO (1 Delta)") /\
  (pause_decrease2_applies cg c = true ->
   title = "PAUSAR (30 min) Y AJUSTAR (2 Deltas)") /\
  (increase1_applies cg c = true -> title = "AUMENTAR FLUJO (1 Delta)") /\
  (increase2_applies cg c = true -> title = "AUMENTAR FLUJO (2 Deltas)") /\
  (decrease1_applies cg c = false ->
   pause_decrease2_applies cg c = false ->
   increase1_applies cg c = false ->
   increase2_applies cg c = false ->
   title = "¡HIPOGLUCEMIA!" \/ title = "CONTINUAR SIN CAMBIOS" \/
   title = "Revisar Datos/Protocolo").
Proof.
  intros N c title. subst title.
  destruct (protocol_blocks cg pg flow d N) as (B1 & B2 & B3 & B4 & B5).
  fold c in B1, B2, B3, B4, B5.
  repeat split.
  - intros F. destruct (B1 F) as [details E]. rewrite E. reflexivity.
  - intros F. destruct (B2 F) as [details E]. rewrite E. reflexivity.
  - intros F. destruct (B3 F) as [details E]. rewrite E. reflexivity.
  - intros F. destruct (B4 F) as [details E]. rewrite E. reflexivity.
  - intros F1 F2 F3 F4.
    destruct (B5 F1 F2 F3 F4) as [[_ E]|[[details E]|E]]; rewrite E; auto.
Qed.

(** C5: on a valid input, a decrease (one delta, or two after the pause)
    is applied exactly on the bands and glucose changes of its branches
    and leaves [max(0.0, flow - delta)], which is never negative; an
    increase is applied exactly on those of its branches and leaves
    [flow + delta], unclamped. *)
Theorem decrease_floored_increase_unclamped (data : InsulinCalculatorFormData) :
  valid_input data = true ->
  exists d v,
    get_deltas (currentInsulinFlow data) = Returned d /\
    run data = Completed v /\
    (decrease1_applies (currentGlucose data) (glucose_change_of data) = true
     <-> action_title v = "DISMINUIR FLUJO (1 Delta)") /\
    (pause_decrease2_applies (currentGlucose data) (glucose_change_of data) = true
     <-> action_title v = "PAUSAR (30 min) Y AJUSTAR (2 Deltas)") /\
    (increase1_applies (currentGlucose data) (glucose_change_of data) = true
     <-> action_title v = "AUMENTAR FLUJO (1 Delta)") /\
    (increase2_applies (currentGlucose data) (glucose_change_of data) = true
     <-> action_title v = "AUMENTAR FLUJO (2 Deltas)") /\
    (action_title v = "DISMINUIR FLUJO (1 Delta)" ->
     new_flow v = PyFloat.max 0.0 (currentInsulinFlow data - delta1 d) /\
     (0 <=? new_flow v) = true /\ (new_flow v <? 0) = false /\
     new_flow_rate_info v = "Nuevo: " ++ fmt1 (new_flow v)) /\
    (action_title v = "PAUSAR (30 min) Y AJUSTAR (2 Deltas)" ->
     new_flow v = PyFloat.max 0.0 (currentInsulinFlow data - delta2 d) /\
     (0 <=? new_flow v) = true /\ (new_flow v <? 0) = false /\
     new_flow_rate_info v = "Post-pausa: " ++ fmt1 (new_flow v)) /\
    (action_title v = "AUMENTAR FLUJO (1 Delta)" ->
     new_flow v = currentInsulinFlow data + delta1 d /\
     new_flow_rate_info v = "Nuevo: " ++ fmt1 (new_flow v)) /\
    (action_title v = "AUMENTAR FLUJO (2 Deltas)" ->
     new_flow v = currentInsulinFlow data + delta2 d /\
     new_flow_rate_info v = "Nuevo: " ++ fmt1 (new_flow v)).
Proof.
  intros V. pose proof (valid_glucose_is_number data V) as N.
  destruct (run_valid_end data V) as (d & v & Hd & R & _ & PE).
  pose proof (run_valid data V) as (d' & Hd' & R').
  assert (Ev : v = protocol (currentGlucose data) (previousGlucose data)
                            (currentInsulinFlow data) d).
  { assert (d' = d) by congruence. subst d'.
    change (match Completed v with Completed x => x | EarlyReturn _ => v end =
            protocol (currentGlucose data) (previousGlucose data)
                     (currentInsulinFlow data) d).
    rewrite <- R, R'. reflexivity. }
  exists d, v. split; [exact Hd|]. split; [exact R|]. clear Hd' R' d'.
  assert (Titles :
    (decrease1_applies (currentGlucose data) (glucose_change_of data) = true
     <-> action_title v = "DISMINUIR FLUJO (1 Delta)") /\
    (pause_decrease2_applies (currentGlucose data) (glucose_change_of data) = true
     <-> action_title v = "PAUSAR (30 min) Y AJUSTAR (2 Deltas)") /\
    (increase1_applies (currentGlucose data) (glucose_change_of data) = true
     <-> action_title v = "AUMENTAR FLUJO (1 Delta)") /\
    (increase2_applies (currentGlucose data) (glucose_change_of data) = true
     <-> action_title v = "AUMENTAR FLUJO (2 Deltas)")).
  { destruct (block_titles (currentGlucose data) (previousGlucose data)
                (currentInsulinFlow data) d N) as (T1 & T2 & T3 & T4 & T5).
    rewrite <- Ev in T1, T2, T3, T4, T5. cbv zeta in T1, T2, T3, T4, T5.
    fold (glucose_change_of data) in T1, T2, T3, T4, T5.
    clear PE Ev R.
    destruct (decrease1_applies _ _) eqn:F1;
      [specialize (T1 eq_refl) | clear T1];
      (destruct (pause_decrease2_applies _ _) eqn:F2;
       [specialize (T2 eq_refl) | clear T2]);
      (destruct (increase1_applies _ _) eqn:F3;
       [specialize (T3 eq_refl) | clear T3]);
      (destruct (increase2_applies _ _) eqn:F4;
       [specialize (T4 eq_refl) | clear T4]);
      try (specialize (T5 eq_refl eq_refl eq_refl eq_refl));
      try (exfalso; congruence);
      repeat match goal with
             | H : action_title v = _ |- _ => rewrite H
             end;
      repeat split; intros H; try reflexivity; try discriminate H;
      try (destruct T5 as [T|[T|T]]; rewrite T in H; discriminate H). }
  destruct Titles as (A1 & A2 & A3 & A4).
  split; [exact A1|]. split; [exact A2|]. split; [exact A3|].
  split; [exact A4|]. clear A1 A2 A3 A4 Ev R N V Hd.
  destruct PE; vars_simpl; (split; [|split; [|split]]); intros H;
    try (vm_compute in H; discriminate H); clear H;
    rewrite ?FloatArith.add_opp; repeat split;
    auto using max_0_nonneg, max_0_not_negative.
Qed.

Lemma decrease_floored_increase_unclamped_witness :
  (exists d v,
      get_deltas 0.3 = Returned d /\
      run (mkFormData 80 90 0.3) = Completed v /\
      action_title v = "DISMINUIR FLUJO (1 Delta)" /\
      new_flow v = PyFloat.max 0.0 (0.3 - delta1 d) /\
      (0 <=? new_flow v) = true) /\
  (exists d v,
      get_deltas 0.3 = Returned d /\
      run (mkFormData 80 120 0.3) = Completed v /\
      action_title v = "PAUSAR (30 min) Y AJUSTAR (2 Deltas)" /\
      new_flow v = PyFloat.max 0.0 (0.3 - delta2 d) /\
      (0 <=? new_flow v) = true) /\
  (exists d v,
      get_deltas 4.2 = Returned d /\
      run (mkFormData 185 170 4.2) = Completed v /\
      action_title v = "AUMENTAR FLUJO (1 Delta)" /\
      new_flow v = 4.2 + delta1 d) /\
  (exists d v,
      get_deltas 4.2 = Returned d /\
      run (mkFormData 210 200 4.2) = Completed v /\
      action_title v = "AUMENTAR FLUJO (2 Deltas)" /\
      new_flow v = 4.2 + delta2 d).
Proof.
  repeat split.
  - destruct (decrease_floored_increase_unclamped (mkFormData 80 90 0.3) eq_refl)
      as (d & v & Hd & R & A1 & _ & _ & _ & H1 & _).
    exists d, v. split; [exact Hd|]. split; [exact R|].
    pose proof (proj1 A1 eq_refl) as T. split; [exact T|].
    destruct (H1 T) as (E & P & _). split; [exact E | exact P].
  - destruct (decrease_floored_increase_unclamped (mkFormData 80 120 0.3) eq_refl)
      as (d & v & Hd & R & _ & A2 & _ & _ & _ & H2 & _).
    exists d, v. split; [exact Hd|]. split; [exact R|].
    pose proof (proj1 A2 eq_refl) as T. split; [exact T|].
    destruct (H2 T) as (E & P & _). split; [exact E | exact P].
  - destruct (decrease_floored_increase_unclamped (mkFormData 185 170 4.2) eq_refl)
      as (d & v & Hd & R & _ & _ & A3 & _ & _ & _ & H3 & _).
    exists d, v. split; [exact Hd|]. split; [exact R|].
    pose proof (proj1 A3 eq_refl) as T. split; [exact T|].
    destruct (H3 T) as (E & _). exact E.
  - destruct (decrease_floored_increase_unclamped (mkFormData 210 200 4.2) eq_refl)
      as (d & v & Hd & R & _ & _ & _ & A4 & _ & _ & _ & H4).
    exists d, v. split; [exact Hd|]. split; [exact R|].
    pose proof (proj1 A4 eq_refl) as T. split; [exact T|].
    destruct (H4 T) as (E & _). exact E.
Defined.

(** X4: a valid input with the current glucose at 75 or more and a
    rising glucose gets a hold or an increase, never a decrease. *)
Theorem rising_glucose_never_decreases (data : InsulinCalculatorFormData) :
  valid_input data = true ->
  (75 <=? currentGlucose data) = true ->
  (glucose_change_of data >? 0) = true ->
  exists d v,
    get_deltas (currentInsulinFlow data) = Returned d /\
    run data = Completed v /\
    ((action_title v = "CONTINUAR SIN CAMBIOS" /\
      new_flow v = currentInsulinFlow data) \/
     (action_title v = "AUMENTAR FLUJO (1 Delta)" /\
      new_flow v = currentInsulinFlow data + delta1 d) \/
     (action_title v = "AUMENTAR FLUJO (2 Deltas)" /\
      new_flow v = currentInsulinFlow data + delta2 d)).
Proof.
  intros V L G. pose proof (valid_glucose_is_number data V) as N.
  destruct (run_valid data V) as (d & Hd & R).
  exists d. eexists. split; [exact Hd|]. split; [exact R|].
  unfold glucose_change_of in G. destruct data as [cg pg flow].
  cbn [currentGlucose previousGlucose currentInsulinFlow] in *.
  clear V Hd R. by_band N.
  generalize dependent (cg - pg). intros c G.
  split_ifs; vars_simpl;
    first [left; split; reflexivity
          | right; left; split; reflexivity
          | right; right; split; reflexivity
          | exfalso; float_lia].
Qed.

Lemma rising_glucose_never_decreases_witness :
  let data := mkFormData 185 170 4.2 in
  exists d v,
    get_deltas (currentInsulinFlow data) = Returned d /\
    run data = Completed v /\
    ((action_title v = "CONTINUAR SIN CAMBIOS" /\
      new_flow v = currentInsulinFlow data) \/
     (action_title v = "AUMENTAR FLUJO (1 Delta)" /\
      new_flow v = currentInsulinFlow data + delta1 d) \/
     (action_title v = "AUMENTAR FLUJO (2 Deltas)" /\
      new_flow v = currentInsulinFlow data + delta2 d)).
Proof.
  intros data. apply (rising_glucose_never_decreases data); reflexivity.
Defined.

(** X5: a valid input with the current glucose under 100 never gets an
    increase: the result is the hypoglycemia, a hold, a decrease or the
    pause. *)
Theorem no_increase_below_100 (data : InsulinCalculatorFormData) :
  valid_input data = true ->
  (currentGlucose data <? 100) = true ->
  exists d v,
    get_deltas (currentInsulinFlow data) = Returned d /\
    run data = Completed v /\
    ((action_title v = "¡HIPOGLUCEMIA!" /\ new_flow v = 0) \/
     (action_title v = "CONTINUAR SIN CAMBIOS" /\
      new_flow v = currentInsulinFlow data) \/
     (action_title v = "DISMINUIR FLUJO (1 Delta)" /\
      new_flow v = PyFloat.max 0 (currentInsulinFlow data - delta1 d)) \/
     (action_title v = "PAUSAR (30 min) Y AJUSTAR (2 Deltas)" /\
      new_flow v = PyFloat.max 0 (currentInsulinFlow data - delta2 d))).
Proof.
  intros V U. pose proof (valid_glucose_is_number data V) as N.
  assert (M : PyFloat.is_number (glucose_change_of data) = true).
  { apply finite_glucose_change_is_number; [exact V|].
    clear V N. destruct data as [cg pg flow]; cbn in *. float_lia. }
  destruct (run_valid data V) as (d & Hd & R).
  exists d. eexists. split; [exact Hd|]. split; [exact R|].
  unfold glucose_change_of in M. destruct data as [cg pg flow].
  cbn [currentGlucose previousGlucose currentInsulinFlow] in *.
  clear V Hd R. by_band N.
  generalize dependent (cg - pg). intros c M.
  split_ifs; vars_simpl; rewrite ?FloatArith.add_opp;
    first [left; split; reflexivity
          | right; left; split; reflexivity
          | right; right; left; split; reflexivity
          | right; right; right; split; reflexivity
          | exfalso; float_lia].
Qed.

Lemma no_increase_below_100_witness :
  let data := mkFormData 80 90 0.3 in
  exists d v,
    get_deltas (currentInsulinFlow data) = Returned d /\
    run data = Completed v /\
    ((action_title v = "¡HIPOGLUCEMIA!" /\ new_flow v = 0) \/
     (action_title v = "CONTINUAR SIN CAMBIOS" /\
      new_flow v = currentInsulinFlow data) \/
     (action_title v = "DISMINUIR FLUJO (1 Delta)" /\
      new_flow v = PyFloat.max 0 (currentInsulinFlow data - delta1 d)) \/
     (action_title v = "PAUSAR (30 min) Y AJUSTAR (2 Deltas)" /\
      new_flow v = PyFloat.max 0 (currentInsulinFlow data - delta2 d))).
Proof.
  intros data. apply (no_increase_below_100 data); reflexivity.
Defined.

(** X6: a valid input with the current glucose at 75 or more and a
    fall of more than 100 always gets the pause, in every band. *)
Theorem large_fall_pauses (data : InsulinCalculatorFormData) :
  valid_input data = true ->
  (75 <=? currentGlucose data) = true ->
  (glucose_change_of data <? -100) = true ->
  exists d v,
    get_deltas (currentInsulinFlow data) = Returned d /\
    run data = Completed v /\
    action_title v = "PAUSAR (30 min) Y AJUSTAR (2 Deltas)" /\
    new_flow v = PyFloat.max 0 (currentInsulinFlow data - delta2 d) /\
    is_critical v = true /\
    color_class v = "warning".
Proof.
  intros V L G. pose proof (valid_glucose_is_number data V) as N.
  destruct (run_valid data V) as (d & Hd & R).
  exists d. eexists. split; [exact Hd|]. split; [exact R|].
  unfold glucose_change_of in G. destruct data as [cg pg flow].
  cbn [currentGlucose previousGlucose currentInsulinFlow] in *.
  clear V Hd R. by_band N.
  generalize dependent (cg - pg). intros c G.
  split_ifs; vars_simpl; rewrite ?FloatArith.add_opp;
    first [repeat split; reflexivity | exfalso; float_lia].
Qed.

Lemma large_fall_pauses_witness :
  let data := mkFormData 150 260 8 in
  exists d v,
    get_deltas (currentInsulinFlow data) = Returned d /\
    run data = Completed v /\
    action_title v = "PAUSAR (30 min) Y AJUSTAR (2 Deltas)" /\
    new_flow v = PyFloat.max 0 (currentInsulinFlow data - delta2 d) /\
    is_critical v = true /\
    color_class v = "warning".
Proof.
  intros data. apply (large_fall_pauses data); reflexivity.
Defined.

(** X7: on a valid input [isCritical] marks the hypoglycemia and the
    pause, and nothing else. *)
Theorem critical_iff_hypoglycemia_or_pause (data : InsulinCalculatorFormData) :
  valid_input data = true ->
  let r := calculate_insulin_adjustment data in
  isCritical r = true <->
  actionTitle r = "¡HIPOGLUCEMIA!" \/
  actionTitle r = "PAUSAR (30 min) Y AJUSTAR (2 Deltas)".
Proof.
  intros V r. subst r.
  destruct (run_valid_end data V) as (d & v & _ & _ & E & PE).
  rewrite E. clear E V.
  destruct PE; vars_simpl; split; intros H;
    try discriminate H; try (destruct H as [H|H]; closed_title H);
    auto.
Qed.

Lemma critical_iff_hypoglycemia_or_pause_witness :
  let data := mkFormData 70 90 5 in
  let r := calculate_insulin_adjustment data in
  isCritical r = true <->
  actionTitle r = "¡HIPOGLUCEMIA!" \/
  actionTitle r = "PAUSAR (30 min) Y AJUSTAR (2 Deltas)".
Proof.
  intros data. apply (critical_iff_hypoglycemia_or_pause data); reflexivity.
Defined.

(** Sums of non-negative floats are non-negative. *)
Lemma SFadd_nonneg (x y : spec_float) :
  SFleb (S754_zero false) x = true -> SFleb (S754_zero false) y = true ->
  SFleb (S754_zero false) (SF64add x y) = true.
Proof.
  destruct x as [sx|[]| |[] mx ex]; try discriminate;
    destruct y as [sy|[]| |[] my ey]; try discriminate; intros _ _;
    try reflexivity.
  - destruct sx, sy; reflexivity.
  - unfold SF64add, SFadd. cbn [cond_Zopp].
    set (ez := Z.min ex ey).
    destruct (shl_align mx ex ez) as [mx' ex'], (shl_align my ey ez) as [my' ey'].
    cbn [fst Z.add binary_normalize]. unfold binary_round.
    destruct (shl_align _ _ _) as [mz ez'].
    unfold binary_round_aux.
    pose proof (FloatArith.shr_fexp_nonneg prec emax (Z.pos mz) ez' loc_Exact
                  ltac:(lia)) as H1.
    destruct (shr_fexp prec emax (Z.pos mz) ez' loc_Exact) as [mrs' e'].
    cbn [fst] in H1.
    pose proof (FloatArith.shr_fexp_nonneg prec emax _ e' loc_Exact
                  (FloatArith.round_nearest_even_nonneg _
                     (loc_of_shr_record mrs') H1)) as H2.
    destruct (shr_fexp prec emax _ e' loc_Exact) as [mrs'' e''].
    cbn [fst] in H2.
    destruct (shr_m mrs''); try lia; try reflexivity.
    destruct (e'' <=? emax - prec)%Z; reflexivity.
Qed.

Lemma add_nonneg (a b : float) :
  (0 <=? a) = true -> (0 <=? b) = true -> (0 <=? a + b) = true.
Proof.
  rewrite !leb_spec, add_spec. apply SFadd_nonneg.
Qed.

(** X8: the deltas of any flow, negative, infinite or [nan] included,
    lie within the table: at most 5 and 10, and at least 0.5 and 1 unless
    the flow is [nan]. *)
Theorem get_deltas_bounds (flow : float) :
  exists d,
    get_deltas flow = Returned d /\
    (0 <=? delta1 d) = true /\ (delta1 d <=? 5) = true /\
    (0 <=? delta2 d) = true /\ (delta2 d <=? 10) = true /\
    (PyFloat.is_number flow = true ->
     (0.5 <=? delta1 d) = true /\ (1 <=? delta2 d) = true).
Proof.
  unfold get_deltas.
  split_ifs; eexists; (split; [reflexivity|]); cbn [delta1 delta2];
    repeat split; try reflexivity. float_lia. float_lia.
Qed.

(** No delta is negative. *)
Lemma get_deltas_nonneg (flow : float) (d : Deltas) :
  get_deltas flow = Returned d ->
  (0 <=? delta1 d) = true /\ (0 <=? delta2 d) = true.
Proof.
  intros H.
  assert (D : d = match get_deltas flow with
                  | Returned x => x
                  | Raised _ => d
                  end) by (rewrite H; reflexivity).
  rewrite D. unfold get_deltas. split_ifs; split; reflexivity.
Qed.

(** X9: the recommended flow of a valid input is a number and is never
    negative, whichever block assigns it. *)
Theorem new_flow_nonneg (data : InsulinCalculatorFormData) :
  valid_input data = true ->
  exists v, run data = Completed v /\ (0 <=? new_flow v) = true.
Proof.
  intros V. destruct (valid_input_fields data V) as (_ & _ & F).
  destruct (run_valid_end data V) as (d & v & Hd & R & _ & PE).
  exists v. split; [exact R|].
  destruct (get_deltas_nonneg _ _ Hd) as [D1 D2]. clear Hd R V.
  destruct PE; vars_simpl;
    auto using max_0_nonneg, add_nonneg.
Qed.

Lemma new_flow_nonneg_witness :
  let data := mkFormData 80 90 0.3 in
  exists v, run data = Completed v /\ (0 <=? new_flow v) = true.
Proof.
  intros data. apply (new_flow_nonneg data); reflexivity.
Defined.

(** X10: the severity of every result is one of the four classes, and it
    is "error" exactly for an invalid input or a hypoglycemia. *)
Theorem severity_classes (data : InsulinCalculatorFormData) :
  let r := calculate_insulin_adjustment data in
  (colorClass r = "success" \/ colorClass r = "info" \/
   colorClass r = "warning" \/ colorClass r = "error") /\
  (colorClass r = "error" <->
   valid_input data = false \/ (currentGlucose data <? 75) = true).
Proof.
  intros r. subst r. destruct (valid_input data) eqn:V.
  - pose proof (valid_glucose_is_number data V) as N.
    destruct (run_valid data V) as (d & _ & R).
    unfold calculate_insulin_adjustment. rewrite R. clear R V.
    destruct data as [cg pg flow].
    cbn [currentGlucose previousGlucose currentInsulinFlow] in *.
    by_band N. generalize (cg - pg). intros c.
    split_ifs; vars_simpl;
      (split;
       [tauto
       | split; intros H;
         [try discriminate H; auto | destruct H as [H|H]; congruence]]).
  - unfold calculate_insulin_adjustment. rewrite (run_invalid data V).
    cbn [colorClass error_en_datos]. tauto.
Qed.

(** X11: the flow line of a valid input always prints the recommended
    flow, in one of its five wordings. *)
Theorem flow_line_shows_new_flow (data : InsulinCalculatorFormData) :
  valid_input data = true ->
  exists v,
    run data = Completed v /\
    let shown := fmt1 (new_flow v) in
    let line := newFlowRateInfo (calculate_insulin_adjustment data) in
    line = "Mantener flujo: " ++ shown ++ " cc/h" \/
    line = "Mantener: " ++ shown \/
    line = "Nuevo: " ++ shown \/
    line = "Post-pausa: " ++ shown \/
    line = "Nuevo flujo sugerido: " ++ shown ++ " cc/h (SUSPENDER)".
Proof.
  intros V. destruct (run_valid_end data V) as (d & v & _ & R & E & PE).
  exists v. split; [exact R|]. rewrite E. clear E R V.
  destruct PE; vars_simpl; tauto.
Qed.

Lemma flow_line_shows_new_flow_witness :
  let data := mkFormData 185 170 4.2 in
  exists v,
    run data = Completed v /\
    let shown := fmt1 (new_flow v) in
    let line := newFlowRateInfo (calculate_insulin_adjustment data) in
    line = "Mantener flujo: " ++ shown ++ " cc/h" \/
    line = "Mantener: " ++ shown \/
    line = "Nuevo: " ++ shown \/
    line = "Post-pausa: " ++ shown \/
    line = "Nuevo flujo sugerido: " ++ shown ++ " cc/h (SUSPENDER)".
Proof.
  intros data. apply (flow_line_shows_new_flow data); reflexivity.
Defined.

Lemma append_assoc (a b c : string) : (a ++ b) ++ c = a ++ (b ++ c).
Proof. induction a as [|x a IH]; cbn; [|rewrite IH]; reflexivity. Qed.

Lemma append_nil_r (a : string) : a ++ "" = a.
Proof. induction a as [|x a IH]; cbn; [|rewrite IH]; reflexivity. Qed.

(** X12: the summary of a valid input is the glucose change line, then
    the label of the band of the current glucose (the hypoglycemia note
    under 75), then the note of the delta applied, when the block that
    runs is a decrease or an increase, and nothing more; the original flow
    line is the entered flow. *)
Theorem summary_is_change_band_delta (data : InsulinCalculatorFormData) :
  valid_input data = true ->
  let cg := currentGlucose data in
  let pg := previousGlucose data in
  let r := calculate_insulin_adjustment data in
  exists d,
    get_deltas (currentInsulinFlow data) = Returned d /\
    calculationSummary r =
      Some (("Cambio de glucosa: " ++ fmt0_signed (cg - pg) ++ " mg/dL ("
               ++ fmt0 pg ++ " -> " ++ fmt0 cg ++ " mg/dL).")
              ++ band_label cg ++ delta_note cg (cg - pg) d) /\
    originalFlowRateInfo r =
      "Flujo actual: " ++ fmt1 (currentInsulinFlow data) ++ " cc/h".
Proof.
  intros V cg pg r. subst cg pg r.
  pose proof (valid_glucose_is_number data V) as N.
  destruct (run_valid data V) as (d & Hd & R).
  exists d. split; [exact Hd|].
  unfold calculate_insulin_adjustment. rewrite R. clear R V Hd.
  destruct data as [cg pg flow].
  cbn [currentGlucose previousGlucose currentInsulinFlow] in *.
  destruct (protocol_blocks cg pg flow d N) as (B1 & B2 & B3 & B4 & B5).
  cbv zeta in B1, B2, B3, B4, B5. unfold delta_note.
  set (head := "Cambio de glucosa: " ++ _).
  destruct (decrease1_applies cg (cg - pg)) eqn:F1.
  { destruct (B1 eq_refl) as [details E]. rewrite E. vars_simpl. fold head.
    rewrite append_assoc. split; reflexivity. }
  destruct (pause_decrease2_applies cg (cg - pg)) eqn:F2.
  { destruct (B2 eq_refl) as [details E]. rewrite E. vars_simpl. fold head.
    rewrite append_assoc. split; reflexivity. }
  destruct (increase1_applies cg (cg - pg)) eqn:F3.
  { destruct (B3 eq_refl) as [details E]. rewrite E. vars_simpl. fold head.
    rewrite append_assoc. split; reflexivity. }
  destruct (increase2_applies cg (cg - pg)) eqn:F4.
  { destruct (B4 eq_refl) as [details E]. rewrite E. vars_simpl. fold head.
    rewrite append_assoc. split; reflexivity. }
  rewrite append_nil_r.
  destruct (B5 eq_refl eq_refl eq_refl eq_refl) as [[L E]|[[details E]|E]];
    rewrite E; vars_simpl; fold head; [|split; reflexivity..].
  unfold band_label. rewrite L. split; reflexivity.
Qed.

Lemma summary_is_change_band_delta_witness :
  let r := calculate_insulin_adjustment (mkFormData 185 170 4.2) in
  exists d,
    get_deltas 4.2 = Returned d /\
    calculationSummary r =
      Some (("Cambio de glucosa: " ++ fmt0_signed (185 - 170) ++ " mg/dL ("
               ++ fmt0 170 ++ " -> " ++ fmt0 185 ++ " mg/dL).")
              ++ band_label 185 ++ delta_note 185 (185 - 170) d) /\
    originalFlowRateInfo r = "Flujo actual: " ++ fmt1 4.2 ++ " cc/h".
Proof.
  apply (summary_is_change_band_delta (mkFormData 185 170 4.2)).
  reflexivity.
Defined.

(** X13: on a valid input the glucose change fails to be a number in one
    case only: both glucose values are [+inf]. *)
Theorem glucose_change_nan_iff (data : InsulinCalculatorFormData) :
  valid_input data = true ->
  (PyFloat.is_number (glucose_change_of data) = false <->
   currentGlucose data = infinity /\ previousGlucose data = infinity).
Proof.
  intros V. destruct (valid_input_fields data V) as (C & P & _).
  destruct data as [cg pg flow]. unfold glucose_change_of, PyFloat.is_number.
  cbn [currentGlucose previousGlucose currentInsulinFlow] in *.
  rewrite leb_spec, sub_spec. rewrite ltb_spec in C, P.
  change (Prim2SF 0) with (S754_zero false) in *.
  split.
  - intros H.
    assert (E : Prim2SF cg = S754_infinity false /\
                Prim2SF pg = S754_infinity false).
    { destruct (Prim2SF cg) as [s|[]| |[] m e]; try discriminate C.
      - destruct (Prim2SF pg) as [s|[]| |[] m e]; try discriminate P;
          [tauto | discriminate H].
      - rewrite FloatArith.SFleb_refl in H; [discriminate H|].
        apply FloatArith.SFsub_not_nan; try discriminate.
        intros E. rewrite E in P. discriminate P. }
    destruct E as [E1 E2].
    split; apply Prim2SF_inj; [rewrite E1 | rewrite E2]; reflexivity.
  - intros [-> ->]. reflexivity.
Qed.

Lemma glucose_change_nan_iff_witness :
  let data := mkFormData infinity infinity 1 in
  (PyFloat.is_number (glucose_change_of data) = false <->
   currentGlucose data = infinity /\ previousGlucose data = infinity).
Proof.
  intros data. apply (glucose_change_nan_iff data); reflexivity.
Defined.

(* ================================================================== *)
(** * Properties of the session state and of the page script *)

Ltac state_simpl :=
  cbv beta iota zeta delta
    [reset_values init_session_state set_current_glucose
     set_previous_glucose set_current_flow set_recommendation
     set_recommendation_calculated del_recommendation has_key read_key
     new_session incomplete_fields results_visible stored_when_ready blank
     call_calculate_insulin_adjustment
     current_glucose previous_glucose current_flow recommendation
     recommendation_calculated negb andb orb] in *.

(** After the initialization the four keys it creates are there; the
    recommendation key is the one it leaves alone. *)
Lemma init_session_state_keys (s : SessionState) :
  exists cg pg flow b,
    init_session_state s = mkSessionState (Some cg) (Some pg) (Some flow)
                                          (recommendation s) (Some b) /\
    (forall x, current_glucose s = Some x -> cg = x) /\
    (forall x, previous_glucose s = Some x -> pg = x) /\
    (forall x, current_flow s = Some x -> flow = x) /\
    (forall x, recommendation_calculated s = Some x -> b = x) /\
    (current_glucose s = None -> cg = None) /\
    (previous_glucose s = None -> pg = None) /\
    (current_flow s = None -> flow = None) /\
    (recommendation_calculated s = None -> b = false).
Proof.
  destruct s as [[cg|] [pg|] [flow|] r [b|]]; state_simpl;
    do 4 eexists; (split; [reflexivity|]);
    repeat split; intros; congruence.
Qed.

(** What the results area draws: the stored recommendation when it is
    visible, nothing otherwise. *)
Lemma display_results_returns (s : SessionState) :
  display_results s =
  Returned (match recommendation s with
            | Some r => if results_visible s then draw_recommendation r else []
            | None => []
            end).
Proof.
  unfold display_results.
  destruct s as [cg pg flow [r|] [[|]|]]; state_simpl; reflexivity.
Qed.

(** X14: one run of the page script never fails on a missing key,
    whatever keys the session state has and whether the form was
    submitted or not. *)
Theorem rerun_returns (submitted : bool) (s : SessionState) :
  exists s' shown, rerun submitted s = Returned (s', shown).
Proof.
  unfold rerun. cbv zeta.
  destruct (init_session_state_keys s) as (cg & pg & flow & b & E & _).
  rewrite E. destruct submitted.
  - unfold on_submit. state_simpl.
    destruct cg as [cg|], pg as [pg|], flow as [flow|];
      rewrite display_results_returns; do 2 eexists; reflexivity.
  - rewrite display_results_returns. do 2 eexists; reflexivity.
Qed.

(** X15: the flag is never raised without a stored recommendation: this
    holds in a new session and after a reset, and every run of the script
    keeps it; the results are then visible exactly when the flag is up. *)
Theorem rerun_keeps_stored_when_ready :
  stored_when_ready new_session /\
  (forall s, stored_when_ready (reset_values s)) /\
  (forall submitted s s' shown,
      stored_when_ready s ->
      rerun submitted s = Returned (s', shown) ->
      stored_when_ready s' /\
      results_visible s' =
        match recommendation_calculated s' with
        | Some b => b
        | None => false
        end).
Proof.
  split; [discriminate|]. split.
  { intros s. destruct s as [cg pg flow [r|] b]; discriminate. }
  intros submitted s s' shown I. unfold rerun. cbv zeta.
  destruct (init_session_state_keys s) as (cg & pg & flow & b & E & _ & _ & _ & B & _ & _ & _ & B').
  rewrite E. clear E. destruct submitted.
  - unfold on_submit. state_simpl.
    destruct cg as [cg|], pg as [pg|], flow as [flow|];
      rewrite display_results_returns; intros H;
      match type of H with
      | Returned (?a, _) = _ =>
          assert (E : s' = a)
            by (change (match Returned (s', shown) with
                        | Returned (x, _) => x | Raised _ => s' end = a);
                rewrite <- H; reflexivity)
      end; subst s'; state_simpl; split; try discriminate; reflexivity.
  - rewrite display_results_returns. intros H.
    match type of H with
    | Returned (?a, _) = _ =>
        assert (E : s' = a)
          by (change (match Returned (s', shown) with
                      | Returned (x, _) => x | Raised _ => s' end = a);
              rewrite <- H; reflexivity)
    end. subst s'. clear H. state_simpl.
    destruct s as [cg0 pg0 flow0 [r|] [b0|]]; state_simpl;
      try (specialize (B _ eq_refl)); try (specialize (B' eq_refl));
      subst b; split; try reflexivity; try discriminate;
      try (intros _; reflexivity); try exact I;
      destruct b0; try reflexivity; discriminate (I eq_refl).
Qed.

(** X16: [reset_values] forgets the session: whatever the state, the
    three fields are [None], no recommendation is stored and the flag is
    down; a second reset or the initialization changes nothing, the script
    then draws nothing, and a submit only asks for the fields. *)
Theorem reset_values_forgets (s : SessionState) :
  reset_values s =
    mkSessionState (Some None) (Some None) (Some None) None (Some false) /\
  reset_values (reset_values s) = reset_values s /\
  init_session_state (reset_values s) = reset_values s /\
  rerun false (reset_values s) = Returned (reset_values s, []) /\
  rerun true (reset_values s) =
    Returned (reset_values s,
              [st_error "❌ Por favor, complete todos los campos."]).
Proof.
  assert (E : reset_values s =
              mkSessionState (Some None) (Some None) (Some None) None
                             (Some false))
    by (destruct s as [cg pg flow [r|] b]; reflexivity).
  rewrite !E. repeat split.
Qed.

(** X17: a submit with the three fields filled stores the recommendation
    of these values, raises the flag and draws that recommendation. *)
Theorem submit_shows_recommendation (s : SessionState) (cg pg flow : float) :
  current_glucose s = Some (Some cg) ->
  previous_glucose s = Some (Some pg) ->
  current_flow s = Some (Some flow) ->
  let r := calculate_insulin_adjustment (mkFormData cg pg flow) in
  rerun true s =
  Returned (mkSessionState (Some (Some cg)) (Some (Some pg)) (Some (Some flow))
                           (Some r) (Some true),
            draw_recommendation r).
Proof.
  intros C P F r. unfold rerun. cbv zeta.
  destruct (init_session_state_keys s)
    as (cg' & pg' & flow' & b & E & C' & P' & F' & _).
  rewrite E. rewrite (C' _ C), (P' _ P), (F' _ F).
  unfold on_submit. state_simpl. rewrite display_results_returns.
  reflexivity.
Qed.

Lemma submit_shows_recommendation_witness :
  let r := calculate_insulin_adjustment (mkFormData 185 170 4.2) in
  rerun true (mkSessionState (Some (Some 185)) (Some (Some 170))
                             (Some (Some 4.2)) None (Some false)) =
  Returned (mkSessionState (Some (Some 185)) (Some (Some 170))
                           (Some (Some 4.2)) (Some r) (Some true),
            draw_recommendation r).
Proof.
  apply (submit_shows_recommendation
           (mkSessionState (Some (Some 185)) (Some (Some 170))
                           (Some (Some 4.2)) None (Some false)));
    reflexivity.
Defined.

(** X18: a submit with a field left blank only asks for the fields: the
    flag goes down, no result is drawn, and a recommendation stored before
    stays in the state. *)
Theorem submit_blank_keeps_recommendation (s : SessionState) :
  blank (current_glucose s) || blank (previous_glucose s)
  || blank (current_flow s) = true ->
  exists s',
    rerun true s =
      Returned (s', [st_error "❌ Por favor, complete todos los campos."]) /\
    recommendation s' = recommendation s /\
    recommendation_calculated s' = Some false /\
    results_visible s' = false.
Proof.
  intros B. unfold rerun. cbv zeta.
  destruct s as [[[cg|]|] [[pg|]|] [[flow|]|] r b]; try discriminate B;
    clear B; destruct b as [b|]; state_simpl;
    unfold on_submit; state_simpl; rewrite display_results_returns;
    state_simpl; eexists; repeat split;
    destruct r; reflexivity.
Qed.

Lemma submit_blank_keeps_recommendation_witness :
  let s := mkSessionState (Some (Some 185)) (Some None) (Some (Some 4.2))
                          (Some error_en_datos) (Some true) in
  exists s',
    rerun true s =
      Returned (s', [st_error "❌ Por favor, complete todos los campos."]) /\
    recommendation s' = recommendation s /\
    recommendation_calculated s' = Some false /\
    results_visible s' = false.
Proof.
  intros s. apply (submit_blank_keeps_recommendation s). reflexivity.
Defined.

(** The lines of the expander body before the monitoring warning are
    never warnings. *)
Lemma in_expander_body (r : InsulinRecommendation) (x : element) :
  In x (expander_body r) <->
  x = st_markdown "**Detalles de la acción:**" \/
  (exists detail, In detail (details r) /\ x = st_markdown ("- " ++ detail)) \/
  (exists summary, calculationSummary r = Some summary /\ summary <> "" /\
                   x = st_caption ("📝 *Resumen: " ++ summary ++ "*")) \/
  (needs_monitoring r = true /\ x = monitoring_warning).
Proof.
  unfold expander_body. rewrite !in_app_iff, in_map_iff. cbn [In].
  assert (S : In x (if truthy (calculationSummary r) then
                      match calculationSummary r with
                      | Some summary =>
                          [st_caption ("📝 *Resumen: " ++ summary ++ "*")]
                      | None => []
                      end
                    else []) <->
              exists summary, calculationSummary r = Some summary /\
                              summary <> "" /\
                              x = st_caption ("📝 *Resumen: " ++ summary ++ "*")).
  { destruct (calculationSummary r) as [summary|]; cbn [truthy].
    - destruct (String.eqb_spec summary ""); cbn [negb In].
      + split; [tauto|]. intros (s' & E & N & _). congruence.
      + split.
        * intros [H|[]]. exists summary. auto.
        * intros (s' & E & _ & H). injection E as <-. auto.
    - cbn [In]. split; [tauto|]. intros (s' & E & _). discriminate E. }
  rewrite S. clear S.
  destruct (needs_monitoring r); cbn [In]; split.
  - intros [[H|[]]|[(d & H1 & H2)|[H|[H|[]]]]]; eauto 6.
  - intros [H|[(d & H1 & H2)|[H|[_ H]]]]; eauto 6.
  - intros [[H|[]]|[(d & H1 & H2)|[H|[]]]]; eauto 6.
  - intros [H|[(d & H1 & H2)|[H|[H _]]]]; eauto 6; discriminate H.
Qed.

(** X19: the monitoring warning is drawn for the pause and for the input
    error, and for nothing else. *)
Theorem monitoring_warning_iff (data : InsulinCalculatorFormData) :
  let r := calculate_insulin_adjustment data in
  In monitoring_warning (expander_body r) <->
  valid_input data = false \/
  actionTitle r = "PAUSAR (30 min) Y AJUSTAR (2 Deltas)".
Proof.
  intros r. subst r. rewrite in_expander_body.
  assert (M : needs_monitoring (calculate_insulin_adjustment data) = true <->
              valid_input data = false \/
              actionTitle (calculate_insulin_adjustment data) =
                "PAUSAR (30 min) Y AJUSTAR (2 Deltas)").
  { destruct (valid_input data) eqn:V.
    - destruct (run_valid_end data V) as (d & v & _ & _ & E & PE).
      rewrite E. clear E V. unfold needs_monitoring.
      destruct PE; vars_simpl; vm_compute; split; intros H;
        try discriminate H; auto;
        destruct H as [H|H]; discriminate H.
    - unfold calculate_insulin_adjustment. rewrite (run_invalid data V).
      split; [auto | reflexivity]. }
  rewrite <- M. unfold monitoring_warning. split.
  - intros [H|[(d & _ & H)|[(s & _ & _ & H)|[H _]]]];
      try discriminate H; exact H.
  - intros H. right; right; right. auto.
Qed.

(** The summary of a valid input is never empty. *)
Lemma summary_not_empty (data : InsulinCalculatorFormData) :
  valid_input data = true ->
  exists summary,
    calculationSummary (calculate_insulin_adjustment data) = Some summary /\
    summary <> "".
Proof.
  intros V. destruct (run_valid_end data V) as (d & v & _ & _ & E & PE).
  rewrite E. clear E V.
  destruct PE; vars_simpl; eexists; (split; [reflexivity|]);
    intros H; apply (f_equal String.length) in H;
    cbn [append String.length] in H; discriminate H.
Qed.

(** X20: the summary caption is drawn exactly for a valid input. *)
Theorem summary_caption_iff_valid (data : InsulinCalculatorFormData) :
  let r := calculate_insulin_adjustment data in
  (exists summary,
      calculationSummary r = Some summary /\
      In (st_caption ("📝 *Resumen: " ++ summary ++ "*")) (expander_body r)) <->
  valid_input data = true.
Proof.
  intros r. subst r. destruct (valid_input data) eqn:V.
  - split; [reflexivity|]. intros _.
    destruct (summary_not_empty data V) as (summary & E & N).
    exists summary. split; [exact E|]. rewrite in_expander_body.
    right; right; left. exists summary. auto.
  - split; [|discriminate]. intros (s & E & _).
    unfold calculate_insulin_adjustment in E.
    rewrite (run_invalid data V) in E. discriminate E.
Qed.

(** The severity of a result is one of the four classes. *)
Lemma color_class_cases (data : InsulinCalculatorFormData) :
  let color := colorClass (calculate_insulin_adjustment data) in
  color = "success" \/ color = "info" \/ color = "warning" \/ color = "error".
Proof.
  intros color. subst color. destruct (valid_input data) eqn:V.
  - destruct (run_valid_end data V) as (d & v & _ & _ & E & PE).
    rewrite E. destruct PE; vars_simpl; tauto.
  - unfold calculate_insulin_adjustment. rewrite (run_invalid data V).
    cbn [colorClass error_en_datos]. tauto.
Qed.

(** X21: the alert of a result is always one of the four of the map:
    the default of [alert_map.get] is never used. *)
Theorem alert_of_severity (data : InsulinCalculatorFormData) :
  let color := colorClass (calculate_insulin_adjustment data) in
  (color = "success" /\ alert_function color = st_success) \/
  (color = "info" /\ alert_function color = st_info) \/
  (color = "warning" /\ alert_function color = st_warning) \/
  (color = "error" /\ alert_function color = st_error).
Proof.
  intros color. subst color.
  destruct (color_class_cases data) as [H|[H|[H|H]]]; rewrite H;
    [left | right; left | right; right; left | right; right; right];
    split; reflexivity.
Qed.
